(** * Elite Dangerous purchase tracker: the ingestion and matching engine

    A shallow embedding of [app.py] ([parse_log_file], [parse_cargo_file],
    [get_total_cargo_count], [process_logs], [scan_directory]) and the
    proofs of the properties its specification states about it.

    Conventions of the embedding.
    - A decoded JSON value is a [json]; Python's [None] is [JNull].
      Non-integer numbers are outside the model.
    - A [string] is the UTF-8 encoding of a Python [str].
    - A Python dict is a [gmap string json].
    - Code that can raise returns a [result]; [Raise] carries the class of
      the exception.
    - The SQLite tables are lists of rows in rowid order.  A value is
      stored, and compared, under the affinity of its column.
      [UPDATE ... LIMIT 1] updates the first matching row in rowid order,
      as a build of SQLite that accepts the clause does here.
    - What a file changed is committed after its last event; an exception
      ends the run and leaves the database as of the last commit.
    - The file system, the JSON decoder, the reading of numbers by the
      store and the wall clock are a [world]: oracles, those of the file
      system and the clock indexed by the number of I/O operations
      performed so far in the run.  An oracle says whether the call
      returns or raises, and which exception: the code catches some and
      lets the others end the run. *)

From Stdlib Require Import ZArith Lia Ascii.
From stdpp Require Import gmap strings list fin_maps sorting pretty.

Open Scope Z_scope.

(** ** Python values *)

#[warnings="-register-all"]
Inductive json :=
| JNull
| JBool (b : bool)
| JInt (z : Z)
| JStr (s : string)
| JArr (l : list json)
| JObj (m : gmap string json).

(** Exception classes the code can meet.  [SqliteError] stands for the
    [sqlite3.Error] family, [IOError] for [OSError] and its subclasses;
    [ValueError] is a [ValueError] that is neither a [JSONDecodeError] nor
    a [UnicodeDecodeError]. *)
Inductive exn :=
| KeyError (key : string)
| TypeError
| AttributeError
| OverflowError
| SqliteError
| IOError
| JSONDecodeError
| UnicodeDecodeError
| RecursionError
| ValueError.

Inductive result (A : Type) :=
| Ok (a : A)
| Raise (e : exn).
Arguments Ok {A} a.
Arguments Raise {A} e.

#[global] Instance result_ret : MRet result := λ A a, Ok a.
#[global] Instance result_bind : MBind result := λ A B f m,
  match m with
  | Ok a => f a
  | Raise e => Raise e
  end.

(** [for x in l: s = body(s, x)], stopping at the first exception. *)
Fixpoint for_each {S X : Type} (body : S → X → result S) (l : list X) (s : S)
  : result S :=
  match l with
  | [] => Ok s
  | x :: l' => s' ← body s x; for_each body l' s'
  end.

(** [bool(v)] *)
Definition truthy (v : json) : bool :=
  match v with
  | JNull => false
  | JBool b => b
  | JInt z => negb (z =? 0)
  | JStr s => negb (bool_decide (s = EmptyString))
  | JArr l => negb (bool_decide (length l = 0%nat))
  | JObj m => negb (bool_decide (size m = 0%nat))
  end.

(** [a or b] *)
Definition py_or (a b : json) : json := if truthy a then a else b.

(** [a == b]: [True == 1] and [False == 0] hold in Python, lists compare
    element-wise, dicts compare by keys and values. *)
Fixpoint py_eq (a b : json) : bool :=
  match a, b with
  | JNull, JNull => true
  | JBool x, JBool y => bool_decide (x = y)
  | JBool x, JInt y => Z.b2z x =? y
  | JInt x, JBool y => x =? Z.b2z y
  | JInt x, JInt y => x =? y
  | JStr x, JStr y => bool_decide (x = y)
  | JArr l1, JArr l2 =>
      (fix go (l1 l2 : list json) : bool :=
         match l1, l2 with
         | [], [] => true
         | x :: l1, y :: l2 => py_eq x y && go l1 l2
         | _, _ => false
         end) l1 l2
  | JObj m1, JObj m2 =>
      bool_decide (size m1 = size m2) &&
      map_fold (λ k v acc,
                 acc && match m2 !! k with
                        | Some w => py_eq v w
                        | None => false
                        end) true m1
  | _, _ => false
  end.

(** [a != b] *)
Definition py_ne (a b : json) : bool := negb (py_eq a b).

(** [v is None] *)
Definition is_None (v : json) : bool :=
  match v with JNull => true | _ => false end.

(** [d.get(k)] and [d.get(k, dflt)] on a dict *)
Definition get (d : gmap string json) (k : string) : json :=
  default JNull (d !! k).
Definition get_or (d : gmap string json) (k : string) (dflt : json) : json :=
  default dflt (d !! k).

(** [d[k]] on a dict *)
Definition item_at (d : gmap string json) (k : string) : result json :=
  match d !! k with
  | Some v => Ok v
  | None => Raise (KeyError k)
  end.

(** [v[k]] with a string key on any value: only a dict can be subscripted
    by a string. *)
Definition subscript (v : json) (k : string) : result json :=
  match v with
  | JObj d => item_at d k
  | _ => Raise TypeError
  end.

(** The characters of a string, as one-character strings: a character
    is a byte and the continuation bytes that follow it. *)
Definition is_continuation (c : ascii) : bool :=
  let n := nat_of_ascii c in
  ((128 <=? n) && (n <? 192))%nat.

Fixpoint chars_from (current : string) (s : string) : list json :=
  match s with
  | EmptyString => [JStr current]
  | String c r =>
      if is_continuation c
      then chars_from (current +:+ String c EmptyString) r
      else JStr current :: chars_from (String c EmptyString) r
  end.

Definition chars (s : string) : list json :=
  match s with
  | EmptyString => []
  | String c r => chars_from (String c EmptyString) r
  end.

(** [iter(v)]: a list yields its elements, a dict its keys, a string its
    characters; nothing else is iterable. *)
Definition py_iter (v : json) : result (list json) :=
  match v with
  | JArr l => Ok l
  | JObj m => Ok ((λ kv, JStr kv.1) <$> map_to_list m)
  | JStr s => Ok (chars s)
  | _ => Raise TypeError
  end.

(** [total + x] for an integer [total]: [bool] is a subclass of [int]. *)
Definition int_add (total : Z) (x : json) : result Z :=
  match x with
  | JInt z => Ok (total + z)
  | JBool b => Ok (total + Z.b2z b)
  | _ => Raise TypeError
  end.

(** [x in s] for a set [s] of integers: [x] is hashed, then compared. *)
Definition in_set (x : json) (s : gset Z) : result bool :=
  match x with
  | JInt z => Ok (bool_decide (z ∈ s))
  | JBool b => Ok (bool_decide (Z.b2z b ∈ s))
  | JNull | JStr _ => Ok false
  | JArr _ | JObj _ => Raise TypeError
  end.

(** The size of a value, the measure for induction on nested values. *)
Fixpoint json_size (v : json) : nat :=
  match v with
  | JArr l => S (foldr (λ x n, json_size x + n)%nat 0%nat l)
  | JObj m => S (map_fold (λ _ x n, json_size x + n)%nat 0%nat m)
  | _ => 1%nat
  end.

(** ** Paths and lines *)

(** [os.path.basename]: what follows the last slash. *)
Fixpoint basename_from (acc p : string) : string :=
  match p with
  | EmptyString => acc
  | String c r =>
      if bool_decide (c = "/"%char) then basename_from EmptyString r
      else basename_from (acc +:+ String c EmptyString) r
  end.
Definition basename (p : string) : string := basename_from EmptyString p.

Fixpoint ends_with_slash (p : string) : bool :=
  match p with
  | EmptyString => false
  | String c EmptyString => bool_decide (c = "/"%char)
  | String _ r => ends_with_slash r
  end.

(** [os.path.join(a, b)] for a relative [b]. *)
Definition path_join (a b : string) : string :=
  if bool_decide (a = EmptyString) || ends_with_slash a then a +:+ b
  else a +:+ "/" +:+ b.

(** [str.isspace] holds of the code points U+0009 to U+000D, U+001C to
    U+0020, U+0085, U+00A0, U+1680, U+2000 to U+200A, U+2028, U+2029,
    U+202F, U+205F and U+3000.  Their encodings take one, two or three
    bytes. *)
Definition is_space (c : ascii) : bool :=
  let n := nat_of_ascii c in
  ((9 <=? n) && (n <=? 13) || (28 <=? n) && (n <=? 32))%nat.

Definition is_space2 (a b : ascii) : bool :=
  let a := nat_of_ascii a in
  let b := nat_of_ascii b in
  ((a =? 194) && ((b =? 133) || (b =? 160)))%nat.

Definition is_space3 (a b c : ascii) : bool :=
  let a := nat_of_ascii a in
  let b := nat_of_ascii b in
  let c := nat_of_ascii c in
  ((a =? 225) && (b =? 154) && (c =? 128)
   || (a =? 226) && (b =? 128)
      && ((128 <=? c) && (c <=? 138) || (c =? 168) || (c =? 169) || (c =? 175))
   || (a =? 226) && (b =? 129) && (c =? 159)
   || (a =? 227) && (b =? 128) && (c =? 128))%nat.

(** Drops the white space at the front of the bytes; with [back] the
    bytes are those of the string read from its end, so that the bytes of
    a character come last first. *)
Fixpoint drop_spaces (back : bool) (s : string) : string :=
  match s with
  | EmptyString => EmptyString
  | String a r =>
      if is_space a then drop_spaces back r
      else
        match r with
        | String b r2 =>
            if (if back then is_space2 b a else is_space2 a b)
            then drop_spaces back r2
            else
              match r2 with
              | String c r3 =>
                  if (if back then is_space3 c b a else is_space3 a b c)
                  then drop_spaces back r3
                  else s
              | EmptyString => s
              end
        | EmptyString => s
        end
  end.

Definition lstrip (s : string) : string := drop_spaces false s.

Definition rstrip (s : string) : string :=
  String.rev (drop_spaces true (String.rev s)).

(** [line.strip()] *)
Definition strip (s : string) : string := rstrip (lstrip s).

(** ** The world outside the program

    [file_lines t p] is what iterating over [open(p)] yields at time [t]:
    [None] when [open] raises [IOError], otherwise the lines read before
    the iteration ends; [read_error t p] is the exception that ends this
    iteration, [None] at the end of the file.

    [load_json t p] is what [json.load] returns on [open(p)] at time [t],
    [None] when [open] or [json.load] raises; [load_json_error t p] is then
    the exception.

    [json_loads s] is what [json.loads(s)] returns, [None] when it raises;
    [json_loads_error s] is then the exception.

    [numeric_text s] is the number SQLite reads in the text [s] when a
    numeric affinity applies to it: [NInt z] when its value is the integer
    [z] of 64 bits, however it is written, otherwise [NReal] with the
    IEEE 754 encoding of the value; [None] when [s] is not a well-formed
    number.

    [datetime_now t] is the formatted wall clock at time [t]. *)
Inductive number :=
| NInt (z : Z)
| NReal (bits : Z).

Record world := {
  file_lines : nat → string → option (list string);
  read_error : nat → string → option exn;
  load_json : nat → string → option json;
  load_json_error : nat → string → exn;
  json_loads : string → option json;
  json_loads_error : string → exn;
  numeric_text : string → option number;
  datetime_now : nat → string
}.

(** ** The store *)

(** A value bound to a statement parameter. *)
Inductive param :=
| PNull
| PInt (z : Z)
| PText (s : string).

(** A value of a column.  [SReal] carries the IEEE 754 encoding of the
    number. *)
Inductive sqlval :=
| SNull
| SInt (z : Z)
| SReal (bits : Z)
| SText (s : string).

#[global] Instance sqlval_eq_dec : EqDecision sqlval.
Proof. solve_decision. Defined.

(** Binding a Python value to a statement parameter. *)
Definition sql_bind (v : json) : result param :=
  match v with
  | JNull => Ok PNull
  | JBool b => Ok (PInt (Z.b2z b))
  | JInt z =>
      if (- 2 ^ 63 <=? z) && (z <? 2 ^ 63) then Ok (PInt z)
      else Raise OverflowError
  | JStr s => Ok (PText s)
  | JArr _ | JObj _ => Raise SqliteError
  end.

(** The affinity of the columns declared [TEXT]: an integer becomes its
    decimal text. *)
Definition text_affinity (p : param) : sqlval :=
  match p with
  | PNull => SNull
  | PInt z => SText (pretty z)
  | PText s => SText s
  end.

(** The affinity of the columns declared [INTEGER]: a text that is a
    well-formed number becomes that number. *)
Definition integer_affinity (w : world) (p : param) : sqlval :=
  match p with
  | PNull => SNull
  | PInt z => SInt z
  | PText s =>
      match numeric_text w s with
      | Some (NInt z) => SInt z
      | Some (NReal bits) => SReal bits
      | None => SText s
      end
  end.

(** SQL [a = b] used as a condition, between the value of a column and a
    parameter brought to the affinity of the column: a comparison with
    NULL is not true, and values of different classes differ. *)
Definition sql_eq (a b : sqlval) : bool :=
  match a, b with
  | SInt x, SInt y => x =? y
  | SReal x, SReal y => x =? y
  | SText x, SText y => bool_decide (x = y)
  | _, _ => false
  end.

(** A row of [purchases]; [rowid] is the column [id]. *)
Record purchase := {
  rowid : Z;
  item : sqlval;
  count : sqlval;
  buy_price : sqlval;
  total_cost : sqlval;
  bought_at : sqlval;
  bought_system : sqlval;
  bought_time : sqlval;
  delivered : Z;
  delivered_to : sqlval;
  delivered_time : sqlval;
  sold : Z;
  sold_at : sqlval;
  sold_time : sqlval
}.

#[global] Instance purchase_eq_dec : EqDecision purchase.
Proof. solve_decision. Defined.

(** The database: both tables, and the AUTOINCREMENT counter of
    [purchases]. *)
Record db := {
  purchases : list purchase;
  purchases_seq : Z;
  processed_logs : list (string * string)
}.

Definition set_purchases (l : list purchase) (d : db) : db :=
  {| purchases := l; purchases_seq := purchases_seq d;
     processed_logs := processed_logs d |}.

(** [delivered = 0 AND sold = 0] *)
Definition is_open (r : purchase) : bool :=
  (delivered r =? 0) && (sold r =? 0).

(** [item = ? AND count = ? AND delivered = 0 AND sold = 0], for parameters
    brought to the affinity of the two columns. *)
Definition matches (it ct : sqlval) (r : purchase) : bool :=
  sql_eq (item r) it && sql_eq (count r) ct && is_open r.

Definition mark_sold (station time : sqlval) (r : purchase) : purchase :=
  {| rowid := rowid r; item := item r; count := count r;
     buy_price := buy_price r; total_cost := total_cost r;
     bought_at := bought_at r; bought_system := bought_system r;
     bought_time := bought_time r;
     delivered := delivered r; delivered_to := delivered_to r;
     delivered_time := delivered_time r;
     sold := 1; sold_at := station; sold_time := time |}.

Definition mark_delivered (station time : sqlval) (r : purchase) : purchase :=
  {| rowid := rowid r; item := item r; count := count r;
     buy_price := buy_price r; total_cost := total_cost r;
     bought_at := bought_at r; bought_system := bought_system r;
     bought_time := bought_time r;
     delivered := 1; delivered_to := station; delivered_time := time;
     sold := sold r; sold_at := sold_at r; sold_time := sold_time r |}.

(** [UPDATE ... WHERE cond LIMIT 1]: the first row, in rowid order, that
    satisfies the condition. *)
Fixpoint update_first (cond : purchase → bool) (f : purchase → purchase)
    (l : list purchase) : list purchase :=
  match l with
  | [] => []
  | r :: l' => if cond r then f r :: l' else r :: update_first cond f l'
  end.

(** [UPDATE ... WHERE cond] *)
Definition update_all (cond : purchase → bool) (f : purchase → purchase)
    (l : list purchase) : list purchase :=
  (λ r, if cond r then f r else r) <$> l.

(** The id AUTOINCREMENT gives the next row: one more than the largest id
    the table has ever held. *)
Definition next_rowid (d : db) : Z :=
  Z.max (purchases_seq d) (foldr Z.max 0 (rowid <$> purchases d)) + 1.

(** [INSERT INTO purchases (item, count, buy_price, total_cost, bought_at,
    bought_system, bought_time) VALUES (?, ?, ?, ?, ?, ?, ?)].  Once the
    table has held the largest 64-bit id, SQLite refuses every insert. *)
Definition insert_purchase (w : world) (p1 p2 p3 p4 p5 p6 p7 : json) (d : db)
  : result db :=
  it ← sql_bind p1; ct ← sql_bind p2; bp ← sql_bind p3; tc ← sql_bind p4;
  ba ← sql_bind p5; bs ← sql_bind p6; bt ← sql_bind p7;
  let i := next_rowid d in
  if i <? 2 ^ 63 then
    Ok {| purchases := purchases d ++
            [ {| rowid := i; item := text_affinity it;
                 count := integer_affinity w ct;
                 buy_price := integer_affinity w bp;
                 total_cost := integer_affinity w tc;
                 bought_at := text_affinity ba;
                 bought_system := text_affinity bs;
                 bought_time := text_affinity bt;
                 delivered := 0; delivered_to := SNull; delivered_time := SNull;
                 sold := 0; sold_at := SNull; sold_time := SNull |} ];
          purchases_seq := i;
          processed_logs := processed_logs d |}
  else Raise SqliteError.

(** [UPDATE purchases SET sold = 1, sold_at = ?, sold_time = ?
    WHERE item = ? AND count = ? AND delivered = 0 AND sold = 0 LIMIT 1] *)
Definition update_sold (w : world) (p1 p2 p3 p4 : json) (d : db) : result db :=
  st ← sql_bind p1; tm ← sql_bind p2; it ← sql_bind p3; ct ← sql_bind p4;
  Ok (set_purchases
        (update_first (matches (text_affinity it) (integer_affinity w ct))
           (mark_sold (text_affinity st) (text_affinity tm)) (purchases d))
        d).

(** [UPDATE purchases SET delivered = 1, delivered_to = ?, delivered_time = ?
    WHERE item = ? AND count = ? AND delivered = 0 AND sold = 0 LIMIT 1] *)
Definition update_delivered (w : world) (p1 p2 p3 p4 : json) (d : db)
  : result db :=
  st ← sql_bind p1; tm ← sql_bind p2; it ← sql_bind p3; ct ← sql_bind p4;
  Ok (set_purchases
        (update_first (matches (text_affinity it) (integer_affinity w ct))
           (mark_delivered (text_affinity st) (text_affinity tm))
           (purchases d))
        d).

(** [UPDATE purchases SET delivered = 1, delivered_to = ?, delivered_time = ?
    WHERE delivered = 0 AND sold = 0] *)
Definition update_delivered_all (p1 p2 : json) (d : db) : result db :=
  st ← sql_bind p1; tm ← sql_bind p2;
  Ok (set_purchases
        (update_all is_open
           (mark_delivered (text_affinity st) (text_affinity tm))
           (purchases d))
        d).

(** [SELECT 1 FROM processed_logs WHERE filename = ?] returns a row. *)
Definition is_processed (filename : string) (d : db) : bool :=
  bool_decide (filename ∈ (processed_logs d).*1).

(** [INSERT INTO processed_logs (filename, processed_time) VALUES (?, ?)] *)
Definition insert_processed (filename time : string) (d : db) : db :=
  {| purchases := purchases d; purchases_seq := purchases_seq d;
     processed_logs := processed_logs d ++ [(filename, time)] |}.

(** ** The program *)

(** The configuration, as [load_config] hands it over: [log_directory] is
    [config["log_directory"]], and [colonized_systems] lists the
    [SystemAddress] of every entry of [config["colonized_systems"]]. *)
Record config := {
  log_directory : string;
  colonized_systems : list Z
}.

(** The body of [for line in f]: the events of the lines, in order.  A
    [JSONDecodeError] skips the line; any other exception of [json.loads]
    leaves the loop. *)
Fixpoint decode_lines (w : world) (lines : list string) : result (list json) :=
  match lines with
  | [] => Ok []
  | line :: rest =>
      match json_loads w (strip line) with
      | Some event => events ← decode_lines w rest; Ok (event :: events)
      | None =>
          match json_loads_error w (strip line) with
          | JSONDecodeError => decode_lines w rest
          | x => Raise x
          end
      end
  end.

(** The loop over the lines of an open file, and the way the reading ends:
    an [IOError] is caught and the events decoded so far are returned, any
    other exception leaves [parse_log_file]. *)
Definition parse_lines (w : world) (lines : list string) (ending : option exn)
  : result (list json) :=
  events ← decode_lines w lines;
  match ending with
  | None | Some IOError => Ok events
  | Some x => Raise x
  end.

(** [parse_log_file]: a file that cannot be opened gives no event. *)
Definition parse_log_file (w : world) (t : nat) (filepath : string)
  : result (list json) :=
  match file_lines w t filepath with
  | Some lines => parse_lines w lines (read_error w t filepath)
  | None => Ok []
  end.

(** [parse_cargo_file]: [IOError] and [JSONDecodeError] give the empty
    report, any other exception leaves the function. *)
Definition parse_cargo_file (w : world) (t : nat) (filepath : string)
  : result json :=
  match load_json w t filepath with
  | Some cargo_data => Ok cargo_data
  | None =>
      match load_json_error w t filepath with
      | IOError | JSONDecodeError =>
          Ok (JObj (<["timestamp" := JStr "unknown"]>
                      (<["Inventory" := JArr []]> ∅)))
      | x => Raise x
      end
  end.

(** [get_total_cargo_count]: [sum(item.get("Count", 0) for item in
    inventory)]. *)
Definition get_total_cargo_count (cargo_data : json) : result Z :=
  match cargo_data with
  | JObj d =>
      inventory ← py_iter (get_or d "Inventory" (JArr []));
      for_each (λ total it,
                  match it with
                  | JObj i => int_add total (get_or i "Count" (JInt 0))
                  | _ => Raise AttributeError
                  end) inventory 0
  | _ => Raise AttributeError
  end.

(** The dict [docked_station]. *)
Record docking := {
  StationName : json;
  StarSystem : json;
  SystemAddress : json;
  timestamp : json
}.

(** What [process_logs] carries from one event to the next: the database
    as the connection sees it, its two local variables, and the number of
    I/O operations done. *)
Record run_state := {
  conn : db;
  docked_station : option docking;
  cargo_count : option Z;
  clock : nat
}.

Definition set_conn (d : db) (s : run_state) : run_state :=
  {| conn := d; docked_station := docked_station s;
     cargo_count := cargo_count s; clock := clock s |}.
Definition set_docked_station (ds : option docking) (s : run_state)
  : run_state :=
  {| conn := conn s; docked_station := ds;
     cargo_count := cargo_count s; clock := clock s |}.
Definition set_cargo_count (c : option Z) (s : run_state) : run_state :=
  {| conn := conn s; docked_station := docked_station s;
     cargo_count := c; clock := clock s |}.
Definition tick (s : run_state) : run_state :=
  {| conn := conn s; docked_station := docked_station s;
     cargo_count := cargo_count s; clock := S (clock s) |}.

(** [not docked_station] *)
Definition not_docked (ds : option docking) : bool :=
  match ds with
  | Some _ => false
  | None => true
  end.

(** The body of [for event in events]; [Ok s] with the state unchanged is
    [continue]. *)
Definition process_event (w : world) (colonized : gset Z) (cargo_file : string)
    (s : run_state) (event : json) : result run_state :=
  match event with
  | JObj e =>
      kind ← item_at e "event";
      ts ← item_at e "timestamp";
      if py_eq kind (JStr "Docked") then
        let market_id := get e "MarketID" in
        if is_None market_id then Ok s
        else
          name ← item_at e "StationName";
          system ← item_at e "StarSystem";
          address ← item_at e "SystemAddress";
          Ok (set_docked_station
                (Some {| StationName := name; StarSystem := system;
                         SystemAddress := address; timestamp := ts |}) s)
      else if py_eq kind (JStr "MarketBuy") then
        let market_id := get e "MarketID" in
        if not_docked (docked_station s) || py_ne market_id (get e "MarketID")
        then Ok s
        else
          match docked_station s with
          | Some ds =>
              let item_name :=
                py_or (py_or (get e "Type_Localised") (get e "Type"))
                      (JStr "Unknown") in
              let count := get_or e "Count" (JInt 0) in
              let buy_price := get_or e "BuyPrice" (JInt 0) in
              let total_cost := get_or e "TotalCost" (JInt 0) in
              match insert_purchase w item_name count buy_price total_cost
                      (StationName ds) (StarSystem ds) ts (conn s) with
              | Ok d => Ok (set_conn d s)
              | Raise SqliteError => Ok s
              | Raise x => Raise x
              end
          | None => Ok s
          end
      else if py_eq kind (JStr "MarketSell") then
        let market_id := get e "MarketID" in
        if not_docked (docked_station s) || py_ne market_id (get e "MarketID")
        then Ok s
        else
          match docked_station s with
          | Some ds =>
              let item_name := get_or e "Type" (JStr "Unknown") in
              let count := get_or e "Count" (JInt 0) in
              d ← update_sold w (StationName ds) ts item_name count (conn s);
              Ok (set_conn d s)
          | None => Ok s
          end
      else if py_eq kind (JStr "CargoDepot")
              && py_eq (get e "UpdateType") (JStr "Deliver") then
        let market_id := get e "EndMarketID" in
        if not_docked (docked_station s)
           || py_ne market_id (get e "EndMarketID")
        then Ok s
        else
          match docked_station s with
          | Some ds =>
              let item_name :=
                py_or (py_or (get e "CargoType_Localised") (get e "CargoType"))
                      (JStr "Unknown") in
              let count := get_or e "Count" (JInt 0) in
              d ← update_delivered w (StationName ds) ts item_name count
                     (conn s);
              Ok (set_conn d s)
          | None => Ok s
          end
      else if py_eq kind (JStr "Cargo") then
        cargo_data ← parse_cargo_file w (clock s) cargo_file;
        current_cargo ← get_total_cargo_count cargo_data;
        let s1 := tick s in
        s2 ← (if (current_cargo =? 0)
                 && match cargo_count s with
                    | Some c => 0 <? c
                    | None => false
                    end
                 && negb (not_docked (docked_station s))
              then
                match docked_station s with
                | Some ds =>
                    hit ← in_set (SystemAddress ds) colonized;
                    if hit : bool then
                      d ← update_delivered_all (StationName ds) ts (conn s);
                      Ok (set_conn d s1)
                    else Ok s1
                | None => Ok s1
                end
              else Ok s1);
        Ok (set_cargo_count (Some current_cargo) s2)
      else Ok s
  | _ => Raise TypeError
  end.

(** The body of [for log_file in log_files], up to and including
    [conn.commit()]. *)
Definition process_file (w : world) (colonized : gset Z) (cargo_file : string)
    (s : run_state) (log_file : string) : result run_state :=
  let filename := basename log_file in
  if is_processed filename (conn s) then Ok s
  else
    events ← parse_log_file w (clock s) log_file;
    s' ← for_each (process_event w colonized cargo_file) events (tick s);
    Ok (tick (set_conn
                (insert_processed filename (datetime_now w (clock s')) (conn s'))
                s')).

(** The loop over the files.  The result is the committed database and the
    exception that ended the run, if any: what a file changed before an
    exception was never committed. *)
Fixpoint process_files (w : world) (colonized : gset Z) (cargo_file : string)
    (log_files : list string) (s : run_state) : db * option exn :=
  match log_files with
  | [] => (conn s, None)
  | log_file :: rest =>
      match process_file w colonized cargo_file s log_file with
      | Ok s' => process_files w colonized cargo_file rest s'
      | Raise x => (conn s, Some x)
      end
  end.

Definition start (d : db) : run_state :=
  {| conn := d; docked_station := None; cargo_count := None; clock := 0 |}.

(** [process_logs] *)
Definition process_logs (w : world) (log_files : list string) (cfg : config)
    (d : db) : db * option exn :=
  let colonized : gset Z := list_to_set (colonized_systems cfg) in
  let cargo_file := path_join (log_directory cfg) "Cargo.json" in
  process_files w colonized cargo_file log_files (start d).

(** The database [init_db] creates. *)
Definition empty_db : db :=
  {| purchases := []; purchases_seq := 0; processed_logs := [] |}.

(** * The vocabulary of the properties *)

(** What one event can do to the ledger: nothing, append an open row, mark
    the first matching open row sold or delivered, or mark every open row
    delivered. *)
Inductive ledger_change (l : list purchase) : list purchase → Prop :=
| lc_same : ledger_change l l
| lc_insert r :
    delivered r = 0 → sold r = 0 → ledger_change l (l ++ [r])
| lc_sold it ct st tm :
    ledger_change l (update_first (matches it ct) (mark_sold st tm) l)
| lc_delivered it ct st tm :
    ledger_change l (update_first (matches it ct) (mark_delivered st tm) l)
| lc_bulk st tm :
    ledger_change l (update_all is_open (mark_delivered st tm) l).




(** [event["event"] == name], on a decoded record. *)
Definition has_kind (name : string) (event : json) : bool :=
  match event with
  | JObj e =>
      match e !! "event" with
      | Some kind => py_eq kind (JStr name)
      | None => false
      end
  | _ => false
  end.

(** ["key" in event], on a decoded record. *)
Definition has_key (key : string) (event : json) : bool :=
  match event with
  | JObj e => bool_decide (is_Some (e !! key))
  | _ => false
  end.

(** [event.get(key)] on a decoded record. *)
Definition field (key : string) (event : json) : json :=
  match event with
  | JObj e => get e key
  | _ => JNull
  end.

(** The claim as the specification words it: any [Docked] event with the
    four values replaces the docking context. *)
Definition docked_replaces_unconditionally : Prop :=
  ∀ w colonized cargo_file s e name system address ts,
    e !! "event" = Some (JStr "Docked") →
    e !! "StationName" = Some name →
    e !! "StarSystem" = Some system →
    e !! "SystemAddress" = Some address →
    e !! "timestamp" = Some ts →
    process_event w colonized cargo_file s (JObj e) =
      Ok (set_docked_station
            (Some {| StationName := name; StarSystem := system;
                     SystemAddress := address; timestamp := ts |}) s).

(** The count an inventory entry contributes to the total. *)
Definition entry_count (it : json) : option Z :=
  match it with
  | JObj i =>
      match get_or i "Count" (JInt 0) with
      | JInt z => Some z
      | JBool b => Some (Z.b2z b)
      | _ => None
      end
  | _ => None
  end.



(** The ingestion ledger has an entry for the file. *)
Definition recorded (d : db) (log_file : string) : bool :=
  is_processed (basename log_file) d.

(** The store accepts the value as a parameter. *)
Definition storable (v : json) : bool :=
  match sql_bind v with
  | Ok _ => true
  | Raise _ => false
  end.



(** The key whose absence makes the dispatcher raise: ["event"] or
    ["timestamp"] in any record, and the three location keys in a [Docked]
    record that has a [MarketID]. *)
Definition missing_key (event : json) : option string :=
  match event with
  | JObj e =>
      match e !! "event", e !! "timestamp" with
      | None, _ => Some "event"%string
      | Some _, None => Some "timestamp"%string
      | Some kind, Some _ =>
          if py_eq kind (JStr "Docked") && negb (is_None (get e "MarketID"))
          then
            match e !! "StationName", e !! "StarSystem",
                  e !! "SystemAddress" with
            | None, _, _ => Some "StationName"%string
            | Some _, None, _ => Some "StarSystem"%string
            | Some _, Some _, None => Some "SystemAddress"%string
            | Some _, Some _, Some _ => None
            end
          else None
      end
  | _ => None
  end.




(** The fields of a decoded record. *)
Definition fields (event : json) : gmap string json :=
  match event with
  | JObj e => e
  | _ => ∅
  end.

(** * Sample data *)

(** A decoded record with the given fields. *)
Definition obj (fields : list (string * json)) : json :=
  JObj (list_to_map fields).

Definition docked_alpha : json :=
  obj [("timestamp", JStr "2025-03-01T10:00:00Z"); ("event", JStr "Docked");
       ("StationName", JStr "Alpha Hub"); ("StarSystem", JStr "Sol");
       ("SystemAddress", JInt 10477373803); ("MarketID", JInt 128016640)].

Definition docked_beta : json :=
  obj [("timestamp", JStr "2025-03-01T11:00:00Z"); ("event", JStr "Docked");
       ("StationName", JStr "Beta Port"); ("StarSystem", JStr "Achenar");
       ("SystemAddress", JInt 164098653); ("MarketID", JInt 128666762)].

Definition buy_gold (n : Z) (time : string) : json :=
  obj [("timestamp", JStr time); ("event", JStr "MarketBuy");
       ("MarketID", JInt 128016640); ("Type", JStr "gold");
       ("Count", JInt n); ("BuyPrice", JInt 9000);
       ("TotalCost", JInt (9000 * n))].

Definition sell_gold (n : Z) (time : string) : json :=
  obj [("timestamp", JStr time); ("event", JStr "MarketSell");
       ("MarketID", JInt 128666762); ("Type", JStr "gold");
       ("Count", JInt n); ("SellPrice", JInt 9500)].

Definition cargo_event (time : string) : json :=
  obj [("timestamp", JStr time); ("event", JStr "Cargo");
       ("Vessel", JStr "Ship")].

(** The numbers the store of the sample worlds reads in a text: the
    table covers the texts the samples use. *)
Definition sample_numbers : gmap string number :=
  list_to_map [("5", NInt 5); ("5.0", NInt 5); ("7", NInt 7)].

(** A world without files. *)
Definition bare_world : world :=
  {| file_lines := λ _ _, None; read_error := λ _ _, None;
     load_json := λ _ _, None; load_json_error := λ _ _, IOError;
     json_loads := λ _, None; json_loads_error := λ _, JSONDecodeError;
     numeric_text := λ s, sample_numbers !! s;
     datetime_now := λ _, "2025-03-02 09:00:00" |}.

Definition gold_row (sold_flag : Z) (station time : sqlval) : purchase :=
  {| rowid := 1; item := SText "gold"; count := SInt 5;
     buy_price := SInt 9000; total_cost := SInt 45000;
     bought_at := SText "Alpha Hub"; bought_system := SText "Sol";
     bought_time := SText "2025-03-01T10:05:00Z";
     delivered := 0; delivered_to := SNull; delivered_time := SNull;
     sold := sold_flag; sold_at := station; sold_time := time |}.

Definition alpha : docking :=
  {| StationName := JStr "Alpha Hub"; StarSystem := JStr "Sol";
     SystemAddress := JInt 10477373803;
     timestamp := JStr "2025-03-01T10:00:00Z" |}.

Definition beta : docking :=
  {| StationName := JStr "Beta Port"; StarSystem := JStr "Achenar";
     SystemAddress := JInt 164098653;
     timestamp := JStr "2025-03-01T11:00:00Z" |}.

Definition with_ledger (l : list purchase) (ds : option docking)
    (c : option Z) : run_state :=
  {| conn := {| purchases := l;
                purchases_seq := foldr Z.max 0 (rowid <$> l);
                processed_logs := [] |};
     docked_station := ds; cargo_count := c; clock := 0 |}.

Definition buy_elsewhere : json :=
  obj [("timestamp", JStr "2025-03-01T10:05:00Z"); ("event", JStr "MarketBuy");
       ("MarketID", JInt 3700000000); ("Type", JStr "gold");
       ("Count", JInt 5); ("BuyPrice", JInt 9000); ("TotalCost", JInt 45000)].

Definition sell_elsewhere : json :=
  obj [("timestamp", JStr "2025-03-01T10:06:00Z"); ("event", JStr "MarketSell");
       ("MarketID", JInt 3700000001); ("Type", JStr "gold");
       ("Count", JInt 5)].

Definition deliver_elsewhere : json :=
  obj [("timestamp", JStr "2025-03-01T10:07:00Z"); ("event", JStr "CargoDepot");
       ("UpdateType", JStr "Deliver"); ("EndMarketID", JInt 3700000002);
       ("CargoType", JStr "gold"); ("Count", JInt 5)].

(** The ledger after the events, in a fresh run on the empty database. *)
Definition ledger_after (events : list json) : option (list purchase) :=
  match for_each (process_event bare_world ∅ "Cargo.json") events
          (start empty_db) with
  | Ok s => Some (purchases (conn s))
  | Raise _ => None
  end.

Definition full_hold : gmap string json :=
  list_to_map
    [("timestamp", JStr "2025-03-01T11:20:00Z"); ("event", JStr "Cargo");
     ("Vessel", JStr "Ship");
     ("Inventory",
      JArr [obj [("Name", JStr "gold"); ("Count", JInt 5); ("Stolen", JInt 0)];
            obj [("Name", JStr "silver"); ("Count", JInt 5)]])].

Definition empty_hold : gmap string json :=
  list_to_map
    [("timestamp", JStr "2025-03-01T11:30:00Z"); ("event", JStr "Cargo");
     ("Vessel", JStr "Ship"); ("Inventory", JArr [])].

(** A world whose cargo report shows ten units at time 0 and an empty hold
    afterwards. *)
Definition hold_world : world :=
  {| file_lines := λ _ _, None;
     read_error := λ _ _, None;
     load_json := λ t p,
       if bool_decide (p = "logs/Cargo.json"%string)
       then Some (JObj (match t with O => full_hold | S _ => empty_hold end))
       else None;
     load_json_error := λ _ _, IOError;
     json_loads := λ _, None;
     json_loads_error := λ _, JSONDecodeError;
     numeric_text := λ s, sample_numbers !! s;
     datetime_now := λ _, "2025-03-02 09:00:00" |}.

Definition silver_row : purchase :=
  {| rowid := 2; item := SText "silver"; count := SInt 5;
     buy_price := SInt 4000; total_cost := SInt 20000;
     bought_at := SText "Alpha Hub"; bought_system := SText "Sol";
     bought_time := SText "2025-03-01T10:06:00Z";
     delivered := 0; delivered_to := SNull; delivered_time := SNull;
     sold := 0; sold_at := SNull; sold_time := SNull |}.

(** A [Docked] record with a [MarketID] and no [StationName]. *)
Definition docked_nameless : json :=
  obj [("timestamp", JStr "2025-03-01T12:00:00Z"); ("event", JStr "Docked");
       ("StarSystem", JStr "Lave"); ("SystemAddress", JInt 5068463744);
       ("MarketID", JInt 3228342528)].

Definition journal_1 : string := "logs/Journal.2025-03-01T100000.01.log".
Definition journal_2 : string := "logs/Journal.2025-03-01T110000.01.log".
Definition journal_3 : string := "logs/Journal.2025-03-01T120000.01.log".

(** The decoder of the sample world is a table; the texts stand for the
    lines of a journal. *)
Definition sample_lines : gmap string json :=
  list_to_map
    [("<Docked Alpha Hub>", docked_alpha);
     ("<MarketBuy 1>", buy_gold 1 "2025-03-01T11:01:00Z");
     ("<MarketBuy 2>", buy_gold 2 "2025-03-01T11:02:00Z");
     ("<MarketBuy 3>", buy_gold 3 "2025-03-01T11:03:00Z");
     ("<MarketBuy 4>", buy_gold 4 "2025-03-01T11:04:00Z");
     ("<MarketBuy 5>", buy_gold 5 "2025-03-01T11:05:00Z");
     ("<MarketBuy 6>", buy_gold 6 "2025-03-01T11:06:00Z");
     ("<MarketBuy 7>", buy_gold 7 "2025-03-01T11:07:00Z");
     ("<MarketBuy 8>", buy_gold 8 "2025-03-01T11:08:00Z");
     ("<MarketBuy 9>", buy_gold 9 "2025-03-01T11:09:00Z");
     ("<Docked, no StationName>", docked_nameless)].

(** A no-break space (U+00A0) and a line separator (U+2028). *)
Definition no_break_space : string :=
  String (ascii_of_nat 194) (String (ascii_of_nat 160) EmptyString).
Definition line_separator : string :=
  String (ascii_of_nat 226)
    (String (ascii_of_nat 128) (String (ascii_of_nat 168) EmptyString)).

Definition journal_2_before : list string :=
  ["<MarketBuy 1>"; "<MarketBuy 2>  ";
   no_break_space +:+ "<MarketBuy 3>" +:+ line_separator;
   "<MarketBuy 4>"]%string.
Definition journal_2_after : list string :=
  ["<MarketBuy 5>"; "<MarketBuy 6>"; "<MarketBuy 7>"; "<MarketBuy 8>";
   "<MarketBuy 9>"]%string.


Definition journal_world : world :=
  {| file_lines := λ _ p,
       if bool_decide (p = journal_1) then Some ["<Docked Alpha Hub>"%string]
       else if bool_decide (p = journal_2)
            then Some (journal_2_before ++ "{ truncated"%string
                         :: journal_2_after)
            else if bool_decide (p = journal_3)
                 then Some ["<Docked Alpha Hub>"; "<MarketBuy 1>";
                            "<Docked, no StationName>"; "<MarketBuy 2>"]%string
                 else None;
     read_error := λ _ _, None;
     load_json := λ _ _, None;
     load_json_error := λ _ _, IOError;
     json_loads := λ line, sample_lines !! line;
     json_loads_error := λ _, JSONDecodeError;
     numeric_text := λ s, sample_numbers !! s;
     datetime_now := λ _, "2025-03-02 09:00:00" |}.

Definition sample_config : config :=
  {| log_directory := "logs"; colonized_systems := [164098653] |}.


(** The database after a run on both journals of [journal_world]. *)
Definition after_first_run : db :=
  (process_logs journal_world [journal_1; journal_2] sample_config empty_db).1.

(** The state of a run on [journal_3] when it reaches the third line. *)
Definition after_first_buy : run_state :=
  {| conn := {| purchases :=
                  [ {| rowid := 1; item := SText "gold"; count := SInt 1;
                       buy_price := SInt 9000; total_cost := SInt 9000;
                       bought_at := SText "Alpha Hub";
                       bought_system := SText "Sol";
                       bought_time := SText "2025-03-01T11:01:00Z";
                       delivered := 0; delivered_to := SNull;
                       delivered_time := SNull;
                       sold := 0; sold_at := SNull; sold_time := SNull |} ];
                purchases_seq := 1; processed_logs := [] |};
     docked_station := Some alpha; cargo_count := None; clock := 1 |}.

Definition buy_localised : json :=
  obj [("timestamp", JStr "2025-03-01T10:05:00Z"); ("event", JStr "MarketBuy");
       ("MarketID", JInt 128016640); ("Type", JStr "gold");
       ("Type_Localised", JStr "Gold"); ("Count", JInt 5);
       ("BuyPrice", JInt 9000); ("TotalCost", JInt 45000)].

Definition localised_row : purchase :=
  {| rowid := 1; item := SText "Gold"; count := SInt 5;
     buy_price := SInt 9000; total_cost := SInt 45000;
     bought_at := SText "Alpha Hub"; bought_system := SText "Sol";
     bought_time := SText "2025-03-01T10:05:00Z";
     delivered := 0; delivered_to := SNull; delivered_time := SNull;
     sold := 0; sold_at := SNull; sold_time := SNull |}.

(** * The rest of the vocabulary *)

(** Two rows describe the same purchase: they agree on everything but the
    disposition columns. *)
Definition same_purchase (r r' : purchase) : Prop :=
  rowid r' = rowid r ∧ item r' = item r ∧ count r' = count r
  ∧ buy_price r' = buy_price r ∧ total_cost r' = total_cost r
  ∧ bought_at r' = bought_at r ∧ bought_system r' = bought_system r
  ∧ bought_time r' = bought_time r.

(** What one event can do to the state of the run. *)
Inductive step_effect (s : run_state) : run_state → Prop :=
| se_none : step_effect s s
| se_docked ds : step_effect s (set_docked_station (Some ds) s)
| se_insert w p1 p2 p3 p4 p5 p6 p7 d :
    insert_purchase w p1 p2 p3 p4 p5 p6 p7 (conn s) = Ok d →
    step_effect s (set_conn d s)
| se_sold w p1 p2 p3 p4 d :
    update_sold w p1 p2 p3 p4 (conn s) = Ok d → step_effect s (set_conn d s)
| se_delivered w p1 p2 p3 p4 d :
    update_delivered w p1 p2 p3 p4 (conn s) = Ok d →
    step_effect s (set_conn d s)
| se_cargo n : step_effect s (set_cargo_count (Some n) (tick s))
| se_bulk n p1 p2 d :
    update_delivered_all p1 p2 (conn s) = Ok d →
    step_effect s (set_cargo_count (Some n) (set_conn d (tick s))).

(** The ids of the rows, in table order. *)
Definition rowids (d : db) : list Z := rowid <$> purchases d.

(** The file names of the ingestion ledger. *)
Definition filenames (d : db) : list string := (processed_logs d).*1.

(** The loop over the files, as a fold that keeps the state. *)
Definition process_each (w : world) (colonized : gset Z) (cargo_file : string)
    (log_files : list string) (s : run_state) : result run_state :=
  for_each (process_file w colonized cargo_file) log_files s.

(** Every row of [d] is still in [d'], at the same place, for the same
    purchase. *)
Definition rows_kept (d d' : db) : Prop :=
  ∀ i r, purchases d !! i = Some r →
         ∃ r', purchases d' !! i = Some r' ∧ same_purchase r r'.

(** A database with one open purchase. *)
Definition one_open_row : db :=
  {| purchases := [gold_row 0 SNull SNull]; purchases_seq := 1;
     processed_logs := [] |}.

(** The ids increase along the table. *)
Definition ascending (d : db) : Prop := StronglySorted Z.lt (rowids d).

(** The state of a run on [journal_world] once [journal_1] and [journal_2]
    are processed. *)
Definition after_two_journals : run_state :=
  match process_each journal_world {[164098653]} "logs/Cargo.json"
          [journal_1; journal_2] (start empty_db) with
  | Ok s => s
  | Raise _ => start empty_db
  end.

Definition buy_with_list_count : gmap string json :=
  list_to_map
    [("timestamp", JStr "2025-03-01T10:05:00Z"); ("event", JStr "MarketBuy");
     ("Type", JStr "gold"); ("Count", JArr [JInt 5])].

Definition sell_with_list_count : gmap string json :=
  list_to_map
    [("timestamp", JStr "2025-03-01T10:06:00Z"); ("event", JStr "MarketSell");
     ("Type", JStr "gold"); ("Count", JArr [JInt 5])].

Definition undocked : gmap string json :=
  list_to_map
    [("timestamp", JStr "2025-03-01T10:30:00Z"); ("event", JStr "Undocked");
     ("StationName", JStr "Alpha Hub"); ("MarketID", JInt 128016640)].

Definition depot_collect : gmap string json :=
  list_to_map
    [("timestamp", JStr "2025-03-01T10:31:00Z"); ("event", JStr "CargoDepot");
     ("UpdateType", JStr "Collect"); ("CargoType", JStr "gold");
     ("Count", JInt 5); ("StartMarketID", JInt 128016640)].

(** A mission delivery of three units of Gold. *)
Definition deliver_three : gmap string json :=
  list_to_map
    [("timestamp", JStr "2025-03-01T11:07:00Z"); ("event", JStr "CargoDepot");
     ("UpdateType", JStr "Deliver"); ("EndMarketID", JInt 128666762);
     ("CargoType", JStr "gold"); ("CargoType_Localised", JStr "Gold");
     ("Count", JInt 3)].

Definition deliver_localised : gmap string json :=
  list_to_map
    [("timestamp", JStr "2025-03-01T11:07:00Z"); ("event", JStr "CargoDepot");
     ("UpdateType", JStr "Deliver"); ("EndMarketID", JInt 128666762);
     ("CargoType", JStr "gold"); ("CargoType_Localised", JStr "Gold");
     ("Count", JInt 5)].

(** An open record of [n] units of the item [x]. *)
Definition open_lot (x : string) (n : Z) (r : purchase) : Prop :=
  item r = SText x ∧ count r = SInt n ∧ delivered r = 0 ∧ sold r = 0.

(** The record holds the string [x] under the key, or lacks the key and
    [x] is empty. *)
Definition text_field (e : gmap string json) (key x : string) : Prop :=
  e !! key = Some (JStr x) ∨ (e !! key = None ∧ x = EmptyString).

(** The record holds the 64-bit integer [n] under the key, or lacks the key
    and [n] is zero. *)
Definition int_field (e : gmap string json) (key : string) (n : Z) : Prop :=
  (e !! key = Some (JInt n) ∧ - 2 ^ 63 ≤ n < 2 ^ 63)
  ∨ (e !! key = None ∧ n = 0).

(** The value is an object, for Python a dict. *)
Definition is_object (v : json) : bool :=
  match v with
  | JObj _ => true
  | _ => false
  end.

(** A world whose [Cargo.json] holds a JSON list. *)
Definition list_world : world :=
  {| file_lines := λ _ _, None;
     read_error := λ _ _, None;
     load_json := λ _ _, Some (JArr []);
     load_json_error := λ _ _, IOError;
     json_loads := λ _, None;
     json_loads_error := λ _, JSONDecodeError;
     numeric_text := λ s, sample_numbers !! s;
     datetime_now := λ _, "2025-03-02 09:00:00" |}.

(** A world whose [Cargo.json] is not valid UTF-8. *)
Definition garbled_world : world :=
  {| file_lines := λ _ _, None;
     read_error := λ _ _, None;
     load_json := λ _ _, None;
     load_json_error := λ _ _, UnicodeDecodeError;
     json_loads := λ _, None;
     json_loads_error := λ _, JSONDecodeError;
     numeric_text := λ s, sample_numbers !! s;
     datetime_now := λ _, "2025-03-02 09:00:00" |}.


(** A sale of five units of gold whose count is a text, and a sale whose
    type is a number. *)
Definition sell_gold_text_count : gmap string json :=
  list_to_map
    [("timestamp", JStr "2025-03-01T11:10:00Z"); ("event", JStr "MarketSell");
     ("MarketID", JInt 128666762); ("Type", JStr "gold");
     ("Count", JStr "5")].
Definition sell_numbered_type : gmap string json :=
  list_to_map
    [("timestamp", JStr "2025-03-01T11:10:00Z"); ("event", JStr "MarketSell");
     ("MarketID", JInt 128666762); ("Type", JInt 7); ("Count", JInt 5)].

(** ** The caller of the engine: [scan_directory] *)

(** What [scan_directory] can raise: [FileNotFoundError], for a missing
    [config.json] or log directory, and what it only lets through: the
    [JSONDecodeError] of [load_config] and the exceptions of
    [process_logs]. *)
Inductive failure :=
| FileNotFoundError
| Propagated (x : exn).

(** The host of the application: [load_config] is what [load_config()]
    returns or raises, [isdir] is [os.path.isdir], and [glob p] is
    [glob.glob(p)], in the order the directory lists its entries. *)
Record host := {
  load_config : failure + config;
  isdir : string → bool;
  glob : string → list string
}.

(** [scan_directory]; [list.sort] on paths is the ascending order of
    strings. *)
Definition scan_directory (h : host) (w : world) (d : db)
  : db * option failure :=
  match load_config h with
  | inl x => (d, Some x)
  | inr cfg =>
      let log_dir := log_directory cfg in
      if negb (isdir h log_dir) then (d, Some FileNotFoundError)
      else
        let log_files :=
          merge_sort String.le (glob h (path_join log_dir "Journal.*.log")) in
        match process_logs w log_files cfg d with
        | (d', Some x) => (d', Some (Propagated x))
        | (d', None) => (d', None)
        end
  end.

(** ** More sample data *)

(** A lot of [n] units of gold bought at Alpha Hub, under the given id. *)
Definition gold_lot (id n sold_flag : Z) (station time : sqlval) : purchase :=
  {| rowid := id; item := SText "gold"; count := SInt n;
     buy_price := SInt 9000; total_cost := SInt (9000 * n);
     bought_at := SText "Alpha Hub"; bought_system := SText "Sol";
     bought_time := SText "2025-03-01T10:05:00Z";
     delivered := 0; delivered_to := SNull; delivered_time := SNull;
     sold := sold_flag; sold_at := station; sold_time := time |}.

(** A ledger of four lots of gold, the first of five units already sold and
    the second of three units, before and after a sale of five units. *)
Definition gold_before_sale : run_state :=
  with_ledger
    [gold_lot 1 5 1 (SText "Beta Port") (SText "2025-03-01T11:05:00Z");
     gold_lot 2 3 0 SNull SNull; gold_lot 3 5 0 SNull SNull;
     gold_lot 4 5 0 SNull SNull] (Some beta) None.
Definition gold_after_sale : run_state :=
  with_ledger
    [gold_lot 1 5 1 (SText "Beta Port") (SText "2025-03-01T11:05:00Z");
     gold_lot 2 3 0 SNull SNull;
     gold_lot 3 5 1 (SText "Beta Port") (SText "2025-03-01T11:10:00Z");
     gold_lot 4 5 0 SNull SNull] (Some beta) None.

(** A host whose log directory lists the second journal first. *)
Definition sample_host : host :=
  {| load_config := inr sample_config;
     isdir := λ p, bool_decide (p = "logs"%string);
     glob := λ p,
       if bool_decide (p = "logs/Journal.*.log"%string)
       then [journal_2; journal_1]
       else [] |}.






(** * Properties *)

(** ** Python values *)

Section python_values.

Implicit Types (v : json) (l : list json) (m : gmap string json).

Lemma json_size_elem l v :
  v ∈ l → (json_size v < json_size (JArr l))%nat.
Proof.
  cbn [json_size]. induction 1 as [x l|x y l _ IH]; cbn [foldr]; lia.
Qed.

Lemma json_size_lookup m k v :
  m !! k = Some v → (json_size v < json_size (JObj m))%nat.
Proof.
  intros Hk%elem_of_map_to_list. cbn [json_size].
  rewrite map_fold_foldr.
  induction (map_to_list m) as [|[k' v'] kvs IH]; [by inversion Hk|].
  apply elem_of_cons in Hk as [[= -> ->]|Hk]; cbn [foldr uncurry].
  - lia.
  - specialize (IH Hk). lia.
Qed.

(** In the model a value always equals itself, so [x != x] never holds. *)
Lemma py_eq_refl v : py_eq v v = true.
Proof.
  remember (json_size v) as n eqn:Hn. revert v Hn.
  induction (lt_wf n) as [n _ IH]. intros v ->.
  assert (Hsub : ∀ x, (json_size x < json_size v)%nat → py_eq x x = true).
  { intros x Hx. by eapply IH. }
  clear IH. destruct v as [|b|z|s|l|m]; cbn [py_eq].
  - done.
  - by apply bool_decide_eq_true.
  - apply Z.eqb_refl.
  - by apply bool_decide_eq_true.
  - assert (Hl : ∀ x, x ∈ l → py_eq x x = true).
    { intros x Hx. by apply Hsub, json_size_elem. }
    clear Hsub. induction l as [|x l IHl]; [done|].
    rewrite (Hl x) by left. cbn [andb]. apply IHl.
    intros y Hy. apply Hl. by right.
  - rewrite bool_decide_eq_true_2 by done. cbn [andb].
    rewrite map_fold_foldr.
    assert (Hm : ∀ k x, (k, x) ∈ map_to_list m →
                        m !! k = Some x ∧ py_eq x x = true).
    { intros k x Hk%elem_of_map_to_list. split; [done|].
      by eapply Hsub, json_size_lookup. }
    clear Hsub. induction (map_to_list m) as [|[k x] kvs IHkvs]; [done|].
    cbn [foldr uncurry]. rewrite IHkvs.
    + destruct (Hm k x) as [-> ->]; [left|done].
    + intros k' x' Hk'. apply Hm. by right.
Qed.

(** A non-empty string is truthy. *)
Lemma py_or_str (s : string) v : s ≠ EmptyString → py_or (JStr s) v = JStr s.
Proof.
  intros Hs. unfold py_or. cbn [truthy]. by rewrite bool_decide_eq_false_2.
Qed.

Lemma py_ne_same v : py_ne v v = false.
Proof. unfold py_ne. by rewrite py_eq_refl. Qed.

(** Comparing with a string literal: only that string is equal to it. *)
Lemma py_eq_str v s : py_eq v (JStr s) = true ↔ v = JStr s.
Proof.
  destruct v; cbn [py_eq]; try (split; [discriminate|congruence]).
  rewrite bool_decide_eq_true. split; congruence.
Qed.

End python_values.

(** ** The error monad *)

Lemma bind_Ok {A B} (m : result A) (f : A → result B) (b : B) :
  m ≫= f = Ok b ↔ ∃ a, m = Ok a ∧ f a = Ok b.
Proof.
  destruct m as [a|x]; cbn; split.
  - eauto.
  - by intros (? & [= <-] & ?).
  - discriminate.
  - by intros (? & [=] & _).
Qed.

Lemma item_at_Some (d : gmap string json) k v :
  d !! k = Some v → item_at d k = Ok v.
Proof. unfold item_at. by intros ->. Qed.

Lemma item_at_None (d : gmap string json) k :
  d !! k = None → item_at d k = Raise (KeyError k).
Proof. unfold item_at. by intros ->. Qed.

Lemma for_each_app {S X} (body : S → X → result S) (l1 l2 : list X) (s : S) :
  for_each body (l1 ++ l2) s = for_each body l1 s ≫= for_each body l2.
Proof.
  revert s. induction l1 as [|x l1 IH]; intros s; [done|].
  cbn [for_each app]. destruct (body s x) as [s'|e]; cbn; [apply IH|done].
Qed.

(** Inverts [(x ← m; k x) = Ok b] hypotheses. *)
Ltac inv_bind :=
  repeat match goal with
         | H : _ ≫= _ = Ok _ |- _ =>
             apply bind_Ok in H as (? & ? & H)
         | H : Ok _ = Ok _ |- _ => injection H as H; try subst
         | H : Raise _ = Ok _ |- _ => discriminate H
         end.

(** Decides the comparisons between string literals in the goal. *)
Ltac kind_cases :=
  repeat match goal with
         | |- context [py_eq (JStr ?a) (JStr ?b)] =>
             let r := eval vm_compute in (py_eq (JStr a) (JStr b)) in
             change (py_eq (JStr a) (JStr b)) with r
         end;
  cbn [andb orb negb].

(** ** The dispatcher, one event kind at a time *)

Section dispatcher.

Variables (w : world) (colonized : gset Z) (cargo_file : string).

Implicit Types (s : run_state) (e : gmap string json) (ts : json).

Local Abbreviation step := (process_event w colonized cargo_file).

(** The first two subscripts of the loop body. *)
Lemma step_no_event s e :
  e !! "event" = None → step s (JObj e) = Raise (KeyError "event").
Proof. intros He. unfold process_event. by rewrite (item_at_None _ _ He). Qed.

Lemma step_no_timestamp s e kind :
  e !! "event" = Some kind → e !! "timestamp" = None →
  step s (JObj e) = Raise (KeyError "timestamp").
Proof.
  intros He Ht. unfold process_event.
  by rewrite (item_at_Some _ _ _ He), (item_at_None _ _ Ht).
Qed.

Lemma step_Docked s e ts :
  e !! "event" = Some (JStr "Docked") → e !! "timestamp" = Some ts →
  step s (JObj e) =
    if is_None (get e "MarketID") then Ok s
    else
      name ← item_at e "StationName";
      system ← item_at e "StarSystem";
      address ← item_at e "SystemAddress";
      Ok (set_docked_station
            (Some {| StationName := name; StarSystem := system;
                     SystemAddress := address; timestamp := ts |}) s).
Proof.
  intros He Ht. unfold process_event.
  rewrite (item_at_Some _ _ _ He), (item_at_Some _ _ _ Ht).
  cbn [mbind result_bind]. by kind_cases.
Qed.

Lemma step_MarketBuy s e ts :
  e !! "event" = Some (JStr "MarketBuy") → e !! "timestamp" = Some ts →
  step s (JObj e) =
    match docked_station s with
    | Some ds =>
        match insert_purchase w
                (py_or (py_or (get e "Type_Localised") (get e "Type"))
                       (JStr "Unknown"))
                (get_or e "Count" (JInt 0)) (get_or e "BuyPrice" (JInt 0))
                (get_or e "TotalCost" (JInt 0))
                (StationName ds) (StarSystem ds) ts (conn s) with
        | Ok d => Ok (set_conn d s)
        | Raise SqliteError => Ok s
        | Raise x => Raise x
        end
    | None => Ok s
    end.
Proof.
  intros He Ht. unfold process_event.
  rewrite (item_at_Some _ _ _ He), (item_at_Some _ _ _ Ht).
  cbn [mbind result_bind]. kind_cases. rewrite py_ne_same.
  by destruct (docked_station s).
Qed.

Lemma step_MarketSell s e ts :
  e !! "event" = Some (JStr "MarketSell") → e !! "timestamp" = Some ts →
  step s (JObj e) =
    match docked_station s with
    | Some ds =>
        d ← update_sold w (StationName ds) ts
              (get_or e "Type" (JStr "Unknown")) (get_or e "Count" (JInt 0))
              (conn s);
        Ok (set_conn d s)
    | None => Ok s
    end.
Proof.
  intros He Ht. unfold process_event.
  rewrite (item_at_Some _ _ _ He), (item_at_Some _ _ _ Ht).
  cbn [mbind result_bind]. kind_cases. rewrite py_ne_same.
  by destruct (docked_station s).
Qed.

Lemma step_CargoDepot_Deliver s e ts :
  e !! "event" = Some (JStr "CargoDepot") → e !! "timestamp" = Some ts →
  e !! "UpdateType" = Some (JStr "Deliver") →
  step s (JObj e) =
    match docked_station s with
    | Some ds =>
        d ← update_delivered w (StationName ds) ts
              (py_or (py_or (get e "CargoType_Localised") (get e "CargoType"))
                     (JStr "Unknown"))
              (get_or e "Count" (JInt 0)) (conn s);
        Ok (set_conn d s)
    | None => Ok s
    end.
Proof.
  intros He Ht Hu. unfold process_event.
  rewrite (item_at_Some _ _ _ He), (item_at_Some _ _ _ Ht).
  cbn [mbind result_bind]. kind_cases.
unfold get at 1. rewrite Hu. cbn [from_option id]. kind_cases. rewrite py_ne_same.
  by destruct (docked_station s).
Qed.

Lemma step_Cargo s e ts :
  e !! "event" = Some (JStr "Cargo") → e !! "timestamp" = Some ts →
  step s (JObj e) =
    cargo_data ← parse_cargo_file w (clock s) cargo_file;
    current_cargo ← get_total_cargo_count cargo_data;
    s2 ← (if (current_cargo =? 0)
             && match cargo_count s with
                | Some c => 0 <? c
                | None => false
                end
             && negb (not_docked (docked_station s))
          then
            match docked_station s with
            | Some ds =>
                hit ← in_set (SystemAddress ds) colonized;
                if hit : bool then
                  d ← update_delivered_all (StationName ds) ts (conn s);
                  Ok (set_conn d (tick s))
                else Ok (tick s)
            | None => Ok (tick s)
            end
          else Ok (tick s));
    Ok (set_cargo_count (Some current_cargo) s2).
Proof.
  intros He Ht. unfold process_event.
  rewrite (item_at_Some _ _ _ He), (item_at_Some _ _ _ Ht).
  cbn [mbind result_bind]. by kind_cases.
Qed.

(** Any other kind of event changes nothing. *)
Lemma step_other s e kind ts :
  e !! "event" = Some kind → e !! "timestamp" = Some ts →
  py_eq kind (JStr "Docked") = false →
  py_eq kind (JStr "MarketBuy") = false →
  py_eq kind (JStr "MarketSell") = false →
  py_eq kind (JStr "CargoDepot") && py_eq (get e "UpdateType") (JStr "Deliver")
    = false →
  py_eq kind (JStr "Cargo") = false →
  step s (JObj e) = Ok s.
Proof.
  intros He Ht H1 H2 H3 H4 H5. unfold process_event.
  rewrite (item_at_Some _ _ _ He), (item_at_Some _ _ _ Ht).
  cbn [mbind result_bind]. by rewrite H1, H2, H3, H4, H5.
Qed.

(** *** What one event can do to the ledger *)

(** What an insert that succeeds has done. *)
Lemma insert_purchase_Ok w0 p1 p2 p3 p4 p5 p6 p7 d d' :
  insert_purchase w0 p1 p2 p3 p4 p5 p6 p7 d = Ok d' →
  ∃ it ct bp tc ba bs bt,
    sql_bind p1 = Ok it ∧ sql_bind p2 = Ok ct ∧ sql_bind p3 = Ok bp
    ∧ sql_bind p4 = Ok tc ∧ sql_bind p5 = Ok ba ∧ sql_bind p6 = Ok bs
    ∧ sql_bind p7 = Ok bt ∧ next_rowid d < 2 ^ 63
    ∧ d' = {| purchases := purchases d ++
                [ {| rowid := next_rowid d; item := text_affinity it;
                     count := integer_affinity w0 ct;
                     buy_price := integer_affinity w0 bp;
                     total_cost := integer_affinity w0 tc;
                     bought_at := text_affinity ba;
                     bought_system := text_affinity bs;
                     bought_time := text_affinity bt;
                     delivered := 0; delivered_to := SNull;
                     delivered_time := SNull;
                     sold := 0; sold_at := SNull; sold_time := SNull |} ];
              purchases_seq := next_rowid d;
              processed_logs := processed_logs d |}.
Proof.
  unfold insert_purchase. intros H.
  apply bind_Ok in H as (it & H1 & H). apply bind_Ok in H as (ct & H2 & H).
  apply bind_Ok in H as (bp & H3 & H). apply bind_Ok in H as (tc & H4 & H).
  apply bind_Ok in H as (ba & H5 & H). apply bind_Ok in H as (bs & H6 & H).
  apply bind_Ok in H as (bt & H7 & H). cbv zeta in H.
  destruct (next_rowid d <? 2 ^ 63) eqn:Hroom; [|discriminate].
  injection H as <-. apply Z.ltb_lt in Hroom.
  by exists it, ct, bp, tc, ba, bs, bt.
Qed.

(** An insert succeeds when its values are accepted and an id is left. *)
Lemma insert_purchase_room w0 p1 p2 p3 p4 p5 p6 p7 d it ct bp tc ba bs bt :
  sql_bind p1 = Ok it → sql_bind p2 = Ok ct → sql_bind p3 = Ok bp →
  sql_bind p4 = Ok tc → sql_bind p5 = Ok ba → sql_bind p6 = Ok bs →
  sql_bind p7 = Ok bt → next_rowid d < 2 ^ 63 →
  insert_purchase w0 p1 p2 p3 p4 p5 p6 p7 d =
    Ok {| purchases := purchases d ++
            [ {| rowid := next_rowid d; item := text_affinity it;
                 count := integer_affinity w0 ct;
                 buy_price := integer_affinity w0 bp;
                 total_cost := integer_affinity w0 tc;
                 bought_at := text_affinity ba;
                 bought_system := text_affinity bs;
                 bought_time := text_affinity bt;
                 delivered := 0; delivered_to := SNull;
                 delivered_time := SNull;
                 sold := 0; sold_at := SNull; sold_time := SNull |} ];
          purchases_seq := next_rowid d;
          processed_logs := processed_logs d |}.
Proof.
  intros H1 H2 H3 H4 H5 H6 H7 Hroom%Z.ltb_lt. unfold insert_purchase.
  rewrite H1, H2, H3, H4, H5, H6, H7. cbn [mbind result_bind]. cbv zeta.
  by rewrite Hroom.
Qed.

Lemma insert_purchase_change w0 p1 p2 p3 p4 p5 p6 p7 d d' :
  insert_purchase w0 p1 p2 p3 p4 p5 p6 p7 d = Ok d' →
  ledger_change (purchases d) (purchases d')
  ∧ processed_logs d' = processed_logs d.
Proof.
  intros (it & ct & bp & tc & ba & bs & bt & _ & _ & _ & _ & _ & _ & _ & _ & ->)
    %insert_purchase_Ok.
  cbn. split; [|done]. by apply lc_insert.
Qed.

Lemma step_change s event s' :
  step s event = Ok s' →
  ledger_change (purchases (conn s)) (purchases (conn s'))
  ∧ processed_logs (conn s') = processed_logs (conn s).
Proof.
  intros H. destruct event as [| | | | |e]; try discriminate.
  unfold process_event in H.
  apply bind_Ok in H as (kind & _ & H). apply bind_Ok in H as (ts & _ & H).
  destruct (py_eq kind (JStr "Docked")).
  { destruct (is_None _); inv_bind; cbn; split; done || constructor. }
  destruct (py_eq kind (JStr "MarketBuy")).
  { destruct (_ || _); [inv_bind; split; done || constructor|].
    destruct (docked_station s) as [ds|]; [|inv_bind; split; done || constructor].
    destruct (insert_purchase _ _ _ _ _ _ _ _ _) as [d|x] eqn:Hins.
    - inv_bind. cbn. by eapply insert_purchase_change.
    - destruct x; inv_bind; split; done || constructor. }
  destruct (py_eq kind (JStr "MarketSell")).
  { destruct (_ || _); [inv_bind; split; done || constructor|].
    destruct (docked_station s) as [ds|]; [|inv_bind; split; done || constructor].
    unfold update_sold in H. inv_bind. cbn. split; done || constructor. }
  destruct (_ && _).
  { destruct (_ || _); [inv_bind; split; done || constructor|].
    destruct (docked_station s) as [ds|]; [|inv_bind; split; done || constructor].
    unfold update_delivered in H. inv_bind. cbn. split; done || constructor. }
  destruct (py_eq kind (JStr "Cargo")); [|inv_bind; split; done || constructor].
  apply bind_Ok in H as (report & _ & H).
  apply bind_Ok in H as (n & _ & H). apply bind_Ok in H as (s2 & H2 & H).
  injection H as <-. cbn.
  destruct (_ && _); [|inv_bind; split; done || constructor].
  destruct (docked_station s) as [ds|]; [|inv_bind; split; done || constructor].
  apply bind_Ok in H2 as ([] & _ & H2); [|inv_bind; split; done || constructor].
  unfold update_delivered_all in H2. inv_bind. cbn. split; done || constructor.
Qed.

End dispatcher.

(** ** The ledger *)




(** A row for which the condition fails stays where it is. *)
Lemma update_first_lookup_keep cond f l i r :
  l !! i = Some r → cond r = false → update_first cond f l !! i = Some r.
Proof.
  revert i. induction l as [|x l IH]; intros i Hi Hc; [done|].
  cbn [update_first]. destruct i as [|i]; cbn in Hi.
  - injection Hi as ->. by rewrite Hc.
  - destruct (cond x); cbn; [done|]. by apply IH.
Qed.


(** Either no row satisfies the condition and nothing changes, or the
    first row that does is updated and no other. *)
Lemma update_first_spec cond f l :
  (Forall (λ r, cond r = false) l ∧ update_first cond f l = l)
  ∨ ∃ i r, l !! i = Some r ∧ cond r = true
           ∧ (∀ j r0, (j < i)%nat → l !! j = Some r0 → cond r0 = false)
           ∧ update_first cond f l = <[i:=f r]> l.
Proof.
  induction l as [|x l IH]; [left; by split|].
  cbn [update_first]. destruct (cond x) eqn:Hx.
  - right. exists 0%nat, x. split_and!; [done|done| |done].
    intros j r0 Hj. lia.
  - destruct IH as [[Hall ->]|(i & r & Hi & Hr & Hfirst & ->)].
    + left. split; [by constructor|done].
    + right. exists (S i), r. split_and!; [done|done| |done].
      intros [|j] r0 Hj Hl; cbn in Hl.
      * by injection Hl as <-.
      * apply (Hfirst j); [lia|done].
Qed.


Lemma matches_fields (x : string) (n : Z) r :
  matches (SText x) (SInt n) r = true
  ↔ item r = SText x ∧ count r = SInt n ∧ delivered r = 0 ∧ sold r = 0.
Proof.
  unfold matches, is_open, sql_eq. rewrite !andb_true_iff, !Z.eqb_eq.
  destruct (item r) as [| | |y], (count r) as [|m| |]; split;
    try (by intros [[[=] ?] ?]); try (by intros [[? [=]] ?]);
    try (by intros ([=] & _)); try (by intros (_ & [=] & _)).
  - intros [[->%bool_decide_eq_true ->%Z.eqb_eq] [? ?]]. done.
  - intros ([= ->] & [= ->] & ? & ?).
    rewrite bool_decide_eq_true_2, Z.eqb_refl by done. done.
Qed.

Lemma update_all_lookup cond f l i :
  update_all cond f l !! i = (λ r, if cond r then f r else r) <$> l !! i.
Proof. unfold update_all. apply list_lookup_fmap. Qed.






(** ** The docking context *)

Lemma has_kind_lookup name event :
  has_kind name event = true ↔
  ∃ e, event = JObj e ∧ e !! "event" = Some (JStr name).
Proof.
  split.
  - destruct event as [| | | | |e]; cbn; try discriminate.
    destruct (e !! "event") as [kind|] eqn:He; [|discriminate].
    intros ->%py_eq_str. eauto.
  - intros (e & -> & He). cbn. rewrite He. apply py_eq_refl.
Qed.

(** Only a [Docked] event touches the docking context. *)
Lemma step_keeps_docking w colonized cargo_file s event s' :
  process_event w colonized cargo_file s event = Ok s' →
  has_kind "Docked" event = false →
  docked_station s' = docked_station s.
Proof.
  intros H Hk. destruct event as [| | | | |e]; try discriminate.
  unfold process_event in H. cbn in Hk.
  apply bind_Ok in H as (kind & He & H). apply bind_Ok in H as (ts & _ & H).
  unfold item_at in He. destruct (e !! "event"); [|discriminate].
  injection He as ->. rewrite Hk in H.
  destruct (py_eq kind (JStr "MarketBuy")).
  { destruct (_ || _); [by inv_bind|].
    destruct (docked_station s) as [ds|] eqn:Hds; [|by inv_bind].
    destruct (insert_purchase _ _ _ _ _ _ _ _ _) as [d|[]]; by inv_bind. }
  destruct (py_eq kind (JStr "MarketSell")).
  { destruct (_ || _); [by inv_bind|].
    destruct (docked_station s) as [ds|] eqn:Hds; by inv_bind. }
  destruct (_ && _).
  { destruct (_ || _); [by inv_bind|].
    destruct (docked_station s) as [ds|] eqn:Hds; by inv_bind. }
  destruct (py_eq kind (JStr "Cargo")); [|by inv_bind].
  apply bind_Ok in H as (report & _ & H).
  apply bind_Ok in H as (n & _ & H). apply bind_Ok in H as (s2 & H2 & H).
  injection H as <-. cbn.
  destruct (_ && _); [|by inv_bind].
  destruct (docked_station s) as [ds|] eqn:Hds; [|by inv_bind].
  apply bind_Ok in H2 as ([] & _ & H2); by inv_bind.
Qed.

Lemma events_keep_docking w colonized cargo_file events s s' :
  for_each (process_event w colonized cargo_file) events s = Ok s' →
  Forall (λ event, has_kind "Docked" event = false) events →
  docked_station s' = docked_station s.
Proof.
  revert s. induction events as [|event events IH]; intros s H Hall.
  - by injection H as <-.
  - cbn [for_each] in H. apply bind_Ok in H as (s1 & Hstep & H).
    apply Forall_cons in Hall as [Hk Hall].
    rewrite (IH s1 H Hall). by eapply step_keeps_docking.
Qed.

(** ** Terminal records *)



(** ** A sale before any docking *)

(** C7.  A run starts with no docking context ([start]); as long as no
    [Docked] event has been processed there is none, and a [MarketSell]
    event is then discarded: the state, and with it every purchase record,
    is what it was.  (A record without a timestamp raises before the
    dispatch, as any record does.) *)
Theorem market_sell_without_docking w colonized cargo_file s0 events s event :
  docked_station s0 = None →
  Forall (λ ev, has_kind "Docked" ev = false) events →
  for_each (process_event w colonized cargo_file) events s0 = Ok s →
  has_kind "MarketSell" event = true →
  process_event w colonized cargo_file s event =
    if has_key "timestamp" event then Ok s else Raise (KeyError "timestamp").
Proof.
  intros Hnone Hall Hrun (e & -> & He)%has_kind_lookup.
  assert (Hs : docked_station s = None).
  { rewrite <- Hnone. by eapply events_keep_docking. }
  cbn [has_key]. destruct (e !! "timestamp") as [ts|] eqn:Ht.
  - rewrite bool_decide_eq_true_2 by eauto.
    rewrite (step_MarketSell _ _ _ _ _ ts He Ht). by rewrite Hs.
  - rewrite bool_decide_eq_false_2 by (by intros [? ?]).
    by eapply step_no_timestamp.
Qed.

Lemma market_sell_without_docking_witness :
  process_event bare_world ∅ "Cargo.json"
    (set_cargo_count (Some 0) (tick (start empty_db)))
    (sell_gold 5 "2025-03-01T11:05:00Z")
  = Ok (set_cargo_count (Some 0) (tick (start empty_db))).
Proof.
  apply (market_sell_without_docking bare_world ∅ "Cargo.json"
           (start empty_db)
           [buy_gold 5 "2025-03-01T10:05:00Z";
            cargo_event "2025-03-01T10:06:00Z"]
           (set_cargo_count (Some 0) (tick (start empty_db)))
           (sell_gold 5 "2025-03-01T11:05:00Z")).
  - reflexivity.
  - repeat constructor.
  - vm_compute. reflexivity.
  - vm_compute. reflexivity.
Defined.

(** ** The market identifier *)

(** C1.  The guard compares the market identifier of the event with
    itself, and the docking context keeps no market identifier: after
    docking at market 128016640, a purchase at market 3700000000 is
    inserted, and a sale at market 3700000001 or a delivery at market
    3700000002 marks it. *)
Theorem mismatched_market_is_not_discarded :
  field "MarketID" docked_alpha = JInt 128016640
  ∧ field "MarketID" buy_elsewhere = JInt 3700000000
  ∧ field "MarketID" sell_elsewhere = JInt 3700000001
  ∧ field "EndMarketID" deliver_elsewhere = JInt 3700000002
  ∧ ledger_after [docked_alpha; buy_elsewhere]
    = Some [gold_row 0 SNull SNull]
  ∧ ledger_after [docked_alpha; buy_elsewhere; sell_elsewhere]
    = Some [gold_row 1 (SText "Alpha Hub") (SText "2025-03-01T10:06:00Z")]
  ∧ ledger_after [docked_alpha; buy_elsewhere; deliver_elsewhere]
    = Some [mark_delivered (SText "Alpha Hub") (SText "2025-03-01T10:07:00Z")
              (gold_row 0 SNull SNull)].
Proof. vm_compute. done. Qed.

(** ** Docking *)

(** C5, as stated, fails: a [Docked] event without [MarketID] carries the
    four values and leaves the docking context as it was. *)
Lemma docked_without_market_keeps_context : ¬ docked_replaces_unconditionally.
Proof.
  intros Hclaim.
  specialize (Hclaim bare_world ∅ "Cargo.json"%string
                (with_ledger [] (Some alpha) None)
                (list_to_map
                   [("timestamp", JStr "2025-03-01T12:00:00Z");
                    ("event", JStr "Docked");
                    ("StationName", JStr "Gamma Base");
                    ("StarSystem", JStr "Lave");
                    ("SystemAddress", JInt 5068463744)])
                (JStr "Gamma Base") (JStr "Lave") (JInt 5068463744)
                (JStr "2025-03-01T12:00:00Z")
                eq_refl eq_refl eq_refl eq_refl eq_refl).
  vm_compute in Hclaim. discriminate Hclaim.
Qed.

(** C5, amended.  A [Docked] event with a [MarketID] that is not null and
    with the four values replaces the docking context by them, whatever
    the state was; nothing else changes. *)
Theorem docked_replaces_context w colonized cargo_file s e
    market name system address ts :
  e !! "event" = Some (JStr "Docked") →
  e !! "MarketID" = Some market → market ≠ JNull →
  e !! "StationName" = Some name →
  e !! "StarSystem" = Some system →
  e !! "SystemAddress" = Some address →
  e !! "timestamp" = Some ts →
  process_event w colonized cargo_file s (JObj e) =
    Ok (set_docked_station
          (Some {| StationName := name; StarSystem := system;
                   SystemAddress := address; timestamp := ts |}) s).
Proof.
  intros He Hm Hnull Hname Hsys Haddr Hts.
  rewrite (step_Docked _ _ _ _ _ ts He Hts).
  unfold get. rewrite Hm. cbn [from_option id].
  destruct market; [done|..]; cbn [is_None];
    by rewrite (item_at_Some _ _ _ Hname), (item_at_Some _ _ _ Hsys),
         (item_at_Some _ _ _ Haddr).
Qed.

Lemma docked_replaces_context_witness :
  process_event bare_world ∅ "Cargo.json"
    (with_ledger [gold_row 0 SNull SNull] (Some alpha) (Some 5)) docked_beta
  = Ok (with_ledger [gold_row 0 SNull SNull] (Some beta) (Some 5)).
Proof.
  apply (docked_replaces_context bare_world ∅ "Cargo.json"
           (with_ledger [gold_row 0 SNull SNull] (Some alpha) (Some 5))
           (list_to_map
              [("timestamp", JStr "2025-03-01T11:00:00Z");
               ("event", JStr "Docked"); ("StationName", JStr "Beta Port");
               ("StarSystem", JStr "Achenar");
               ("SystemAddress", JInt 164098653);
               ("MarketID", JInt 128666762)])
           (JInt 128666762) (JStr "Beta Port") (JStr "Achenar")
           (JInt 164098653) (JStr "2025-03-01T11:00:00Z")).
  - reflexivity.
  - reflexivity.
  - discriminate.
  - reflexivity.
  - reflexivity.
  - reflexivity.
  - reflexivity.
Defined.

(** ** The cargo snapshot *)

Lemma sum_loop_counts (items : list json) (counts : list Z) (total : Z) :
  Forall2 (λ it c, entry_count it = Some c) items counts →
  for_each (λ total it,
              match it with
              | JObj i => int_add total (get_or i "Count" (JInt 0))
              | _ => Raise AttributeError
              end) items total
  = Ok (total + foldr Z.add 0 counts).
Proof.
  intros Hall. revert total.
  induction Hall as [|it c items counts Hc _ IH]; intros total.
  - cbn. f_equal. lia.
  - cbn [for_each foldr]. unfold entry_count in Hc.
    destruct it as [| | | | |i]; try discriminate.
    destruct (get_or i "Count" (JInt 0)); try discriminate;
      injection Hc as <-; cbn [int_add mbind result_bind];
      rewrite IH; f_equal; lia.
Qed.






(** ** Files already processed *)

Section files.

Variables (w : world) (colonized : gset Z) (cargo_file : string).

Lemma events_keep_processed events s s' :
  for_each (process_event w colonized cargo_file) events s = Ok s' →
  processed_logs (conn s') = processed_logs (conn s).
Proof.
  revert s. induction events as [|event events IH]; intros s H.
  - by injection H as <-.
  - cbn [for_each] in H. apply bind_Ok in H as (s1 & Hstep & H).
    rewrite (IH s1 H). by apply step_change in Hstep as [_ ?].
Qed.

Lemma process_file_recorded s log_file :
  recorded (conn s) log_file = true →
  process_file w colonized cargo_file s log_file = Ok s.
Proof. unfold recorded, process_file. by intros ->. Qed.

(** A file that was processed is recorded, and no record is lost. *)
Lemma process_file_records s log_file s' :
  process_file w colonized cargo_file s log_file = Ok s' →
  recorded (conn s') log_file = true
  ∧ ∀ f, recorded (conn s) f = true → recorded (conn s') f = true.
Proof.
  unfold process_file, recorded.
  destruct (is_processed (basename log_file) (conn s)) eqn:Hp; intros H.
  - injection H as <-. done.
  - apply bind_Ok in H as (events & _ & H).
    apply bind_Ok in H as (s1 & Hrun & H). injection H as <-.
    apply events_keep_processed in Hrun. unfold is_processed.
    cbn [conn tick set_conn insert_processed processed_logs].
    rewrite Hrun. cbn [tick conn processed_logs].
    split.
    + apply bool_decide_eq_true. rewrite fmap_app, elem_of_app. right.
      cbn. left.
    + intros f Hf%bool_decide_eq_true. apply bool_decide_eq_true.
      rewrite fmap_app, elem_of_app. by left.
Qed.

Lemma process_files_skip log_files s (known : string → Prop)
    `{∀ f, Decision (known f)} :
  (∀ f, known f → recorded (conn s) f = true) →
  process_files w colonized cargo_file log_files s
  = process_files w colonized cargo_file
      (filter (λ f, ¬ known f) log_files) s.
Proof.
  revert s. induction log_files as [|f fs IH]; intros s Hknown; [done|].
  destruct (decide (known f)) as [Hf|Hf].
  - rewrite filter_cons_False by tauto. cbn [process_files].
    rewrite process_file_recorded by auto. by apply IH.
  - rewrite filter_cons_True by done. cbn [process_files].
    destruct (process_file w colonized cargo_file s f) as [s'|x] eqn:Hfile;
      [|done].
    apply IH. intros g Hg. by apply (process_file_records _ _ _ Hfile), Hknown.
Qed.

Lemma process_files_records log_files s d :
  process_files w colonized cargo_file log_files s = (d, None) →
  ∀ f, f ∈ log_files ∨ recorded (conn s) f = true → recorded d f = true.
Proof.
  revert s. induction log_files as [|g fs IH]; intros s H f Hf.
  - injection H as <-. destruct Hf as [Hf|Hf]; [by inversion Hf|done].
  - cbn [process_files] in H.
    destruct (process_file w colonized cargo_file s g) as [s'|x] eqn:Hfile;
      [|done].
    apply process_file_records in Hfile as [Hg Hkeep].
    apply (IH s' H). destruct Hf as [[->|Hf]%elem_of_cons|Hf]; auto.
Qed.

End files.

(** C4.  A run skips the files the ingestion ledger records: it does what
    a run without them does.  And once a run over [log_files] has ended
    normally, a run on any of these files, in any world, changes nothing in
    the database. *)
Theorem processed_files_are_skipped :
  (∀ w log_files cfg d,
     process_logs w log_files cfg d
     = process_logs w (filter (λ f, recorded d f = false) log_files) cfg d)
  ∧ (∀ w1 w2 cfg1 cfg2 log_files log_file d d1,
       process_logs w1 log_files cfg1 d = (d1, None) →
       log_file ∈ log_files →
       process_logs w2 [log_file] cfg2 d1 = (d1, None)).
Proof.
  split.
  - intros w log_files cfg d. unfold process_logs.
    rewrite (process_files_skip _ _ _ log_files (start d)
               (λ f, recorded d f = true)) by done.
    f_equal. apply list_filter_iff. intros f.
    by destruct (recorded d f).
  - intros w1 w2 cfg1 cfg2 log_files log_file d d1 Hrun Hin.
    unfold process_logs in *. cbn [process_files].
    rewrite process_file_recorded; [done|].
    eapply process_files_records; eauto.
Qed.

Lemma processed_files_are_skipped_witness :
  process_logs journal_world [journal_1; journal_2] sample_config empty_db
  = (after_first_run, None)
  ∧ length (purchases after_first_run) = 9%nat
  ∧ process_logs journal_world [journal_2] sample_config after_first_run
    = (after_first_run, None).
Proof.
  destruct processed_files_are_skipped as [_ Hagain].
  assert (Hrun : process_logs journal_world [journal_1; journal_2]
                   sample_config empty_db = (after_first_run, None)).
  { vm_compute. reflexivity. }
  split; [exact Hrun|]. split; [vm_compute; reflexivity|].
  apply (Hagain journal_world journal_world sample_config sample_config
           [journal_1; journal_2] journal_2 empty_db after_first_run Hrun).
  do 2 constructor.
Defined.

(** ** Malformed lines *)


Lemma storable_bind v : storable v = true → ∃ x, sql_bind v = Ok x.
Proof. unfold storable. destruct (sql_bind v); [eauto|discriminate]. Qed.



Section buys.

Variables (w : world) (colonized : gset Z) (cargo_file : string).






(** The loop over the lines drops a line on which the decoder raises
    [JSONDecodeError], and goes on. *)
Lemma decode_lines_drops before after bad :
  json_loads w (strip bad) = None →
  json_loads_error w (strip bad) = JSONDecodeError →
  decode_lines w (before ++ bad :: after) = decode_lines w (before ++ after).
Proof.
  intros Hbad Herr. induction before as [|line before IH].
  - cbn [app decode_lines]. by rewrite Hbad, Herr.
  - cbn [app decode_lines]. by rewrite IH.
Qed.



(** When every line decodes or raises [JSONDecodeError], the loop gives
    the events of the lines that decode. *)
Lemma decode_lines_omap (lines : list string) :
  Forall (λ line, json_loads w (strip line) = None →
                  json_loads_error w (strip line) = JSONDecodeError) lines →
  decode_lines w lines = Ok (omap (λ line, json_loads w (strip line)) lines).
Proof.
  induction 1 as [|line lines Hline _ IH]; [done|].
  cbn [decode_lines omap list_omap].
  destruct (json_loads w (strip line)) as [event|].
  - by rewrite IH.
  - by rewrite Hline.
Qed.

Lemma parse_log_file_drops t filepath before after bad :
  file_lines w t filepath = Some (before ++ bad :: after) →
  json_loads w (strip bad) = None →
  json_loads_error w (strip bad) = JSONDecodeError →
  parse_log_file w t filepath
  = parse_lines w (before ++ after) (read_error w t filepath).
Proof.
  intros Hf Hbad Herr. unfold parse_log_file, parse_lines.
  by rewrite Hf, decode_lines_drops.
Qed.

End buys.



(** ** Records with missing keys *)

Lemma step_missing_key w colonized cargo_file s event key :
  missing_key event = Some key →
  process_event w colonized cargo_file s event = Raise (KeyError key).
Proof.
  destruct event as [| | | | |e]; try discriminate. unfold missing_key.
  destruct (e !! "event") as [kind|] eqn:He.
  2:{ intros [= <-]. by apply step_no_event. }
  destruct (e !! "timestamp") as [ts|] eqn:Hts.
  2:{ intros [= <-]. by eapply step_no_timestamp. }
  destruct (py_eq kind (JStr "Docked")) eqn:Hk; [|discriminate].
  apply py_eq_str in Hk as ->. cbn [andb].
  destruct (is_None (get e "MarketID")) eqn:Hm; [discriminate|]. cbn [negb].
  rewrite (step_Docked _ _ _ _ _ ts He Hts), Hm. unfold item_at.
  destruct (e !! "StationName"); [|by intros [= <-]].
  destruct (e !! "StarSystem"); [|by intros [= <-]].
  destruct (e !! "SystemAddress"); [discriminate|by intros [= <-]].
Qed.

(** C9.  A decoded record that lacks ["event"] or ["timestamp"], or a
    [Docked] record with a [MarketID] that lacks one of the three location
    keys, makes the dispatcher raise [KeyError]; in [process_logs] the
    exception ends the run: the file is not recorded, nothing it changed is
    committed, and the files after it are not read.  A line on which the
    decoder raises [JSONDecodeError] is dropped instead, and the lines
    around it are kept. *)
Theorem missing_key_aborts_run w cfg d log_file rest before bad after key s1 :
  recorded d log_file = false →
  parse_log_file w 0 log_file = Ok (before ++ bad :: after) →
  for_each (process_event w (list_to_set (colonized_systems cfg))
              (path_join (log_directory cfg) "Cargo.json"))
    before (tick (start d)) = Ok s1 →
  missing_key bad = Some key →
  process_event w (list_to_set (colonized_systems cfg))
    (path_join (log_directory cfg) "Cargo.json") s1 bad
  = Raise (KeyError key)
  ∧ process_logs w (log_file :: rest) cfg d = (d, Some (KeyError key))
  ∧ (∀ t filepath lines1 junk lines2,
       file_lines w t filepath = Some (lines1 ++ junk :: lines2) →
       json_loads w (strip junk) = None →
       json_loads_error w (strip junk) = JSONDecodeError →
       parse_log_file w t filepath
       = parse_lines w (lines1 ++ lines2) (read_error w t filepath)
       ∧ (Forall (λ line, json_loads w (strip line) = None →
                          json_loads_error w (strip line) = JSONDecodeError)
            (lines1 ++ lines2) →
          read_error w t filepath = None →
          parse_log_file w t filepath
          = Ok (omap (λ line, json_loads w (strip line)) (lines1 ++ lines2)))).
Proof.
  intros Hrec Hparse Hbefore Hkey.
  pose proof (step_missing_key w (list_to_set (colonized_systems cfg))
                (path_join (log_directory cfg) "Cargo.json") s1 bad key Hkey)
    as Hraise.
  split; [done|]. split.
  - unfold process_logs. cbn [process_files]. unfold process_file.
    unfold recorded in Hrec. cbn [start conn clock] in *. rewrite Hrec, Hparse.
    cbn [mbind result_bind].
    rewrite for_each_app. fold (start d). rewrite Hbefore.
    cbn [mbind result_bind for_each]. by rewrite Hraise.
  - intros t filepath lines1 junk lines2 Hfile Hjunk Herr.
    pose proof (parse_log_file_drops w _ _ _ _ _ Hfile Hjunk Herr) as Hdrop.
    split; [done|]. intros Hall Hend. rewrite Hdrop. unfold parse_lines.
    by rewrite (decode_lines_omap w _ Hall), Hend.
Qed.

Lemma missing_key_aborts_run_witness :
  process_event journal_world {[164098653]} "logs/Cargo.json"
    after_first_buy
    docked_nameless
  = Raise (KeyError "StationName")
  ∧ process_logs journal_world [journal_3; journal_2] sample_config empty_db
    = (empty_db, Some (KeyError "StationName")).
Proof.
  destruct (missing_key_aborts_run journal_world sample_config empty_db
              journal_3 [journal_2]
              [docked_alpha; buy_gold 1 "2025-03-01T11:01:00Z"]
              docked_nameless
              [buy_gold 2 "2025-03-01T11:02:00Z"]
              "StationName"%string
              after_first_buy)
    as (Hstep & Hrun & _).
  - reflexivity.
  - vm_compute. reflexivity.
  - vm_compute. reflexivity.
  - reflexivity.
  - exact (conj Hstep Hrun).
Defined.

(** ** Where a sale is attributed *)

Lemma update_first_app_miss cond f l l' :
  Forall (λ r, cond r = false) l →
  update_first cond f (l ++ l') = l ++ update_first cond f l'.
Proof.
  induction 1 as [|r l Hr _ IH]; [done|].
  cbn [app update_first]. by rewrite Hr, IH.
Qed.






(** ** Localized names *)

(** C10.  A [MarketBuy] whose localized name [L] differs from its raw type
    [T] inserts its record under [L]; a [MarketSell] of type [T] resolves
    its item name to [T], so it leaves every record named [L] as it is. *)
Theorem localized_purchase_never_sold w colonized cargo_file s e
    (L T : string) s1 r :
  e !! "event" = Some (JStr "MarketBuy") →
  e !! "Type_Localised" = Some (JStr L) → L ≠ EmptyString →
  e !! "Type" = Some (JStr T) →
  L ≠ T →
  process_event w colonized cargo_file s (JObj e) = Ok s1 →
  purchases (conn s1) = purchases (conn s) ++ [r] →
  item r = SText L
  ∧ ∀ w' colonized' cargo_file' s2 s3 sale i r',
      sale !! "event" = Some (JStr "MarketSell") →
      sale !! "Type" = Some (JStr T) →
      purchases (conn s2) !! i = Some r' →
      item r' = SText L →
      process_event w' colonized' cargo_file' s2 (JObj sale) = Ok s3 →
      purchases (conn s3) !! i = Some r'.
Proof.
  intros He Hloc HL Hty HLT Hstep Hrow. split.
  - destruct (e !! "timestamp") as [ts|] eqn:Hts.
    2:{ by rewrite (step_no_timestamp _ _ _ _ _ _ He Hts) in Hstep. }
    rewrite (step_MarketBuy _ _ _ _ _ ts He Hts) in Hstep.
    assert (Hsame : s1 ≠ s).
    { intros ->. apply (f_equal length) in Hrow.
      rewrite length_app in Hrow. cbn in Hrow. lia. }
    destruct (docked_station s) as [ds|]; [|by injection Hstep as <-].
    unfold get in Hstep at 1. rewrite Hloc in Hstep.
    cbn [from_option id] in Hstep. rewrite !py_or_str in Hstep by done.
    destruct (insert_purchase _ _ _ _ _ _ _ _ _) as [d|x] eqn:Hins in Hstep.
    2:{ destruct x; try discriminate. by injection Hstep as <-. }
    injection Hstep as <-.
    apply insert_purchase_Ok in Hins
      as (it & ct & bp & tc & ba & bs & bt & Hit & _ & _ & _ & _ & _ & _ & _ & ->).
    cbn [sql_bind] in Hit. injection Hit as <-.
    cbn [set_conn conn purchases] in Hrow.
    apply app_inv_head in Hrow. by injection Hrow as <-.
  - intros w' colonized' cargo_file' s2 s3 sale i r' Hk Hsale Hi Hitem Hsell.
    destruct (sale !! "timestamp") as [ts|] eqn:Hts.
    2:{ by rewrite (step_no_timestamp _ _ _ _ _ _ Hk Hts) in Hsell. }
    rewrite (step_MarketSell _ _ _ _ _ ts Hk Hts) in Hsell.
    destruct (docked_station s2) as [ds|]; [|by injection Hsell as <-].
    unfold get_or in Hsell at 1. rewrite Hsale in Hsell.
    cbn [from_option id] in Hsell. unfold update_sold in Hsell. inv_bind.
    cbn [set_conn conn set_purchases purchases].
    apply update_first_lookup_keep; [done|].
    unfold matches. rewrite Hitem.
    match goal with H : sql_bind (JStr T) = Ok _ |- _ => injection H as <- end.
    cbn [sql_eq text_affinity]. by rewrite bool_decide_eq_false_2.
Qed.

Lemma localized_purchase_never_sold_witness :
  process_event bare_world ∅ "Cargo.json" (with_ledger [] (Some alpha) None)
    buy_localised
  = Ok (with_ledger [localised_row] (Some alpha) None)
  ∧ item localised_row = SText "Gold"
  ∧ process_event bare_world ∅ "Cargo.json"
      (with_ledger [localised_row] (Some beta) None)
      (sell_gold 5 "2025-03-01T11:05:00Z")
    = Ok (with_ledger [localised_row] (Some beta) None)
  ∧ purchases (conn (with_ledger [localised_row] (Some beta) None)) !! 0%nat
    = Some localised_row.
Proof.
  assert (Hbuy : process_event bare_world ∅ "Cargo.json"
                   (with_ledger [] (Some alpha) None) buy_localised
                 = Ok (with_ledger [localised_row] (Some alpha) None)).
  { vm_compute. reflexivity. }
  assert (Hsell : process_event bare_world ∅ "Cargo.json"
                    (with_ledger [localised_row] (Some beta) None)
                    (sell_gold 5 "2025-03-01T11:05:00Z")
                  = Ok (with_ledger [localised_row] (Some beta) None)).
  { vm_compute. reflexivity. }
  destruct (localized_purchase_never_sold bare_world ∅ "Cargo.json"
              (with_ledger [] (Some alpha) None) (fields buy_localised)
              "Gold" "gold" (with_ledger [localised_row] (Some alpha) None)
              localised_row)
    as [Hitem Hkeep].
  - reflexivity.
  - reflexivity.
  - discriminate.
  - reflexivity.
  - discriminate.
  - exact Hbuy.
  - reflexivity.
  - split; [exact Hbuy|]. split; [exact Hitem|]. split; [exact Hsell|].
    apply (Hkeep bare_world ∅ "Cargo.json"%string
             (with_ledger [localised_row] (Some beta) None)
             (with_ledger [localised_row] (Some beta) None)
             (fields (sell_gold 5 "2025-03-01T11:05:00Z")) 0%nat localised_row).
    + reflexivity.
    + reflexivity.
    + reflexivity.
    + reflexivity.
    + exact Hsell.
Defined.

(** * Further properties of the engine *)

(** ** The effects of one event *)

Lemma step_effect_of w colonized cargo_file s event s' :
  process_event w colonized cargo_file s event = Ok s' → step_effect s s'.
Proof.
  intros H. destruct event as [| | | | |e]; try discriminate.
  unfold process_event in H.
  apply bind_Ok in H as (kind & _ & H). apply bind_Ok in H as (ts & _ & H).
  destruct (py_eq kind (JStr "Docked")).
  { destruct (is_None _); inv_bind; constructor. }
  destruct (py_eq kind (JStr "MarketBuy")).
  { destruct (_ || _); [inv_bind; constructor|].
    destruct (docked_station s) as [ds|]; [|inv_bind; constructor].
    destruct (insert_purchase _ _ _ _ _ _ _ _ _) as [d|x] eqn:Hins.
    - inv_bind. by eapply se_insert.
    - destruct x; inv_bind; constructor. }
  destruct (py_eq kind (JStr "MarketSell")).
  { destruct (_ || _); [inv_bind; constructor|].
    destruct (docked_station s) as [ds|]; [|inv_bind; constructor].
    apply bind_Ok in H as (d & Hd & [= <-]). by eapply se_sold. }
  destruct (_ && _).
  { destruct (_ || _); [inv_bind; constructor|].
    destruct (docked_station s) as [ds|]; [|inv_bind; constructor].
    apply bind_Ok in H as (d & Hd & [= <-]). by eapply se_delivered. }
  destruct (py_eq kind (JStr "Cargo")); [|inv_bind; constructor].
  apply bind_Ok in H as (report & _ & H).
  apply bind_Ok in H as (n & _ & H). apply bind_Ok in H as (s2 & H2 & H).
  injection H as <-.
  destruct (_ && _); [|inv_bind; constructor].
  destruct (docked_station s) as [ds|]; [|inv_bind; constructor].
  apply bind_Ok in H2 as ([] & _ & H2); [|inv_bind; constructor].
  apply bind_Ok in H2 as (d & Hd & [= <-]). by eapply se_bulk.
Qed.

(** A relation between databases that every event and every recording of
    a file respects holds between the database a run starts from and the
    one it leaves. *)
Section lifting.

Variable R : db → db → Prop.
Hypothesis R_refl : ∀ d, R d d.
Hypothesis R_trans : ∀ d1 d2 d3, R d1 d2 → R d2 d3 → R d1 d3.
Hypothesis R_step : ∀ s s', step_effect s s' → R (conn s) (conn s').
Hypothesis R_mark : ∀ filename time d,
  is_processed filename d = false → R d (insert_processed filename time d).

Variables (w : world) (colonized : gset Z) (cargo_file : string).

Lemma lift_events events s s' :
  for_each (process_event w colonized cargo_file) events s = Ok s' →
  R (conn s) (conn s').
Proof.
  revert s. induction events as [|event events IH]; intros s H.
  - injection H as <-. apply R_refl.
  - cbn [for_each] in H. apply bind_Ok in H as (s1 & Hstep & H).
    eapply R_trans; [|by apply IH]. by eapply R_step, step_effect_of.
Qed.

Lemma lift_file s log_file s' :
  process_file w colonized cargo_file s log_file = Ok s' →
  R (conn s) (conn s').
Proof.
  unfold process_file.
  destruct (is_processed (basename log_file) (conn s)) eqn:Hp; intros H.
  - injection H as <-. apply R_refl.
  - apply bind_Ok in H as (events & _ & H).
    apply bind_Ok in H as (s1 & Hrun & [= <-]).
    pose proof (events_keep_processed _ _ _ _ _ _ Hrun) as Hlogs.
    apply lift_events in Hrun. cbn [conn tick set_conn] in *.
    eapply R_trans; [exact Hrun|]. apply R_mark.
    unfold is_processed in *. by rewrite Hlogs.
Qed.

Lemma lift_files log_files s d x :
  process_files w colonized cargo_file log_files s = (d, x) → R (conn s) d.
Proof.
  revert s. induction log_files as [|f fs IH]; intros s H.
  - injection H as <- _. apply R_refl.
  - cbn [process_files] in H.
    destruct (process_file w colonized cargo_file s f) as [s1|y] eqn:Hfile.
    + eapply R_trans; [by eapply lift_file|by apply IH].
    + injection H as <- _. apply R_refl.
Qed.

End lifting.

(** ** Rows are kept, and keep their purchase *)

Lemma same_purchase_refl r : same_purchase r r.
Proof. by repeat split. Qed.

Lemma same_purchase_trans r1 r2 r3 :
  same_purchase r1 r2 → same_purchase r2 r3 → same_purchase r1 r3.
Proof.
  unfold same_purchase. intros (?&?&?&?&?&?&?&?) (?&?&?&?&?&?&?&?).
  repeat split; congruence.
Qed.

Lemma update_first_same cond (f : purchase → purchase) l i r :
  (∀ x, same_purchase x (f x)) →
  l !! i = Some r →
  ∃ r', update_first cond f l !! i = Some r' ∧ same_purchase r r'.
Proof.
  intros Hf. revert i. induction l as [|x l IH]; intros i Hi; [done|].
  cbn [update_first]. destruct (cond x).
  - destruct i as [|i]; cbn in *.
    + injection Hi as ->. eauto.
    + eauto using same_purchase_refl.
  - destruct i as [|i]; cbn in *.
    + injection Hi as ->. eauto using same_purchase_refl.
    + by apply IH.
Qed.

Lemma update_all_same cond (f : purchase → purchase) l i r :
  (∀ x, same_purchase x (f x)) →
  l !! i = Some r →
  ∃ r', update_all cond f l !! i = Some r' ∧ same_purchase r r'.
Proof.
  intros Hf Hi. rewrite update_all_lookup, Hi. cbn.
  destruct (cond r); eauto using same_purchase_refl.
Qed.

Lemma mark_sold_same st tm r : same_purchase r (mark_sold st tm r).
Proof. by repeat split. Qed.

Lemma mark_delivered_same st tm r : same_purchase r (mark_delivered st tm r).
Proof. by repeat split. Qed.

Lemma rows_kept_refl d : rows_kept d d.
Proof. intros i r Hi. eauto using same_purchase_refl. Qed.

Lemma rows_kept_trans d1 d2 d3 :
  rows_kept d1 d2 → rows_kept d2 d3 → rows_kept d1 d3.
Proof.
  intros H12 H23 i r Hi. destruct (H12 i r Hi) as (r2 & Hi2 & Hs2).
  destruct (H23 i r2 Hi2) as (r3 & Hi3 & Hs3).
  eauto using same_purchase_trans.
Qed.

Lemma rows_kept_step s s' : step_effect s s' → rows_kept (conn s) (conn s').
Proof.
  intros [] i r Hi; cbn [conn set_conn set_docked_station set_cargo_count tick];
    eauto using same_purchase_refl.
  - match goal with
    | H : insert_purchase _ _ _ _ _ _ _ _ _ = Ok _ |- _ =>
        apply insert_purchase_Ok in H
          as (? & ? & ? & ? & ? & ? & ? & _ & _ & _ & _ & _ & _ & _ & _ & ->)
    end.
    cbn. exists r.
    split; [by apply lookup_app_l_Some|apply same_purchase_refl].
  - unfold update_sold in *. inv_bind. cbn.
    apply update_first_same; [apply mark_sold_same|done].
  - unfold update_delivered in *. inv_bind. cbn.
    apply update_first_same; [apply mark_delivered_same|done].
  - unfold update_delivered_all in *. inv_bind. cbn.
    apply update_all_same; [apply mark_delivered_same|done].
Qed.

(** X1.  No run deletes or moves a row, or rewrites what was bought: every
    row of the ledger is found after [process_logs] at the same position,
    with the same id, item, count, prices and place and time of purchase,
    whether the run ended normally or with an exception. *)
Theorem purchases_are_kept w log_files cfg d d' x i r :
  process_logs w log_files cfg d = (d', x) →
  purchases d !! i = Some r →
  ∃ r', purchases d' !! i = Some r' ∧ same_purchase r r'.
Proof.
  intros Hrun. revert i r.
  change (rows_kept d d').
  unfold process_logs in Hrun.
  eapply (lift_files rows_kept rows_kept_refl rows_kept_trans rows_kept_step)
    in Hrun; [exact Hrun|].
  intros filename time d0 _ j r0 Hj. exists r0.
  split; [exact Hj|apply same_purchase_refl].
Qed.

Lemma purchases_are_kept_witness :
  ∃ r', purchases
          (process_logs journal_world [journal_1; journal_2] sample_config
             one_open_row).1 !! 0%nat = Some r'
        ∧ same_purchase (gold_row 0 SNull SNull) r'.
Proof.
  apply (purchases_are_kept journal_world [journal_1; journal_2] sample_config
           one_open_row
           (process_logs journal_world [journal_1; journal_2] sample_config
              one_open_row).1
           (process_logs journal_world [journal_1; journal_2] sample_config
              one_open_row).2
           0%nat (gold_row 0 SNull SNull)).
  - vm_compute. reflexivity.
  - reflexivity.
Defined.

(** ** Row ids *)

Lemma foldr_max_ge (l : list Z) x : x ∈ l → x ≤ foldr Z.max 0 l.
Proof.
  induction 1 as [x l|x y l _ IH]; cbn [foldr]; lia.
Qed.

Lemma update_first_rowids cond f l :
  (∀ x, rowid (f x) = rowid x) → rowid <$> update_first cond f l = rowid <$> l.
Proof.
  intros Hf. induction l as [|r l IH]; [done|]. cbn [update_first].
  destruct (cond r); cbn [fmap list_fmap]; [by rewrite Hf|by rewrite <- IH].
Qed.

Lemma update_all_rowids cond f l :
  (∀ x, rowid (f x) = rowid x) → rowid <$> update_all cond f l = rowid <$> l.
Proof.
  intros Hf. unfold update_all. rewrite <- list_fmap_compose.
  apply list_fmap_ext. intros i r _. cbn. by destruct (cond r).
Qed.

(** The ids stay as they are, or the id AUTOINCREMENT gives is appended. *)
Lemma step_rowids s s' :
  step_effect s s' →
  rowids (conn s') = rowids (conn s)
  ∨ rowids (conn s') = rowids (conn s) ++ [next_rowid (conn s)].
Proof.
  unfold rowids.
  intros []; cbn [conn set_conn set_docked_station set_cargo_count tick];
    auto.
  - right.
    match goal with
    | H : insert_purchase _ _ _ _ _ _ _ _ _ = Ok _ |- _ =>
        apply insert_purchase_Ok in H
          as (? & ? & ? & ? & ? & ? & ? & _ & _ & _ & _ & _ & _ & _ & _ & ->)
    end.
    cbn [purchases]. by rewrite fmap_app.
  - left. unfold update_sold in *. inv_bind. cbn [purchases set_purchases].
    by apply update_first_rowids.
  - left. unfold update_delivered in *. inv_bind.
    cbn [purchases set_purchases]. by apply update_first_rowids.
  - left. unfold update_delivered_all in *. inv_bind.
    cbn [purchases set_purchases]. by apply update_all_rowids.
Qed.

Lemma ascending_step s s' :
  step_effect s s' → ascending (conn s) → ascending (conn s').
Proof.
  unfold ascending. intros Hstep Hs.
  destruct (step_rowids _ _ Hstep) as [->| ->]; [done|].
  apply StronglySorted_app. split_and!; [|done|repeat constructor].
  intros x1 x2 Hx1 ->%list_elem_of_singleton.
  apply foldr_max_ge in Hx1. unfold next_rowid, rowids in *. lia.
Qed.

(** X2.  Rows stay in ascending id order, so ids are never reused or
    duplicated: if the ids of the ledger increase along the table before
    [process_logs], they do after it. *)
Theorem rowids_stay_ascending w log_files cfg d d' x :
  process_logs w log_files cfg d = (d', x) →
  StronglySorted Z.lt (rowids d) →
  StronglySorted Z.lt (rowids d') ∧ NoDup (rowids d').
Proof.
  intros Hrun Hd.
  assert (Hd' : StronglySorted Z.lt (rowids d')).
  { unfold process_logs in Hrun.
    refine (lift_files (λ d1 d2, ascending d1 → ascending d2)
              _ _ ascending_step _ _ _ _ _ _ _ _ Hrun Hd); auto. }
  split; [done|]. clear -Hd'.
  induction Hd' as [|z l _ IH Hall]; constructor; [|done].
  intros Hin. rewrite Forall_forall in Hall. specialize (Hall z Hin). lia.
Qed.

Lemma rowids_stay_ascending_witness :
  StronglySorted Z.lt
    (rowids (process_logs journal_world [journal_1; journal_2] sample_config
               one_open_row).1)
  ∧ NoDup
      (rowids (process_logs journal_world [journal_1; journal_2] sample_config
                 one_open_row).1).
Proof.
  apply (rowids_stay_ascending journal_world [journal_1; journal_2]
           sample_config one_open_row
           (process_logs journal_world [journal_1; journal_2] sample_config
              one_open_row).1
           (process_logs journal_world [journal_1; journal_2] sample_config
              one_open_row).2).
  - vm_compute. reflexivity.
  - repeat constructor.
Defined.

(** ** The ingestion ledger *)

(** A file leaves the ingestion ledger as it is when it is recorded, and
    otherwise adds its own name, once. *)
Lemma process_file_filenames w colonized cargo_file s log_file s' :
  process_file w colonized cargo_file s log_file = Ok s' →
  (basename log_file ∈ filenames (conn s)
   ∧ filenames (conn s') = filenames (conn s))
  ∨ ((basename log_file ∉ filenames (conn s))
     ∧ filenames (conn s') = filenames (conn s) ++ [basename log_file]).
Proof.
  unfold process_file, is_processed, filenames. case_bool_decide as Hin.
  - intros [= <-]. by left.
  - intros (events & _ & (s1 & Hrun & [= <-])%bind_Ok)%bind_Ok.
    right. split; [done|].
    apply events_keep_processed in Hrun.
    cbn [conn tick set_conn insert_processed processed_logs].
    by rewrite fmap_app, Hrun.
Qed.

Lemma process_files_filenames w colonized cargo_file log_files s d x :
  process_files w colonized cargo_file log_files s = (d, x) →
  NoDup (filenames (conn s)) →
  NoDup (filenames d)
  ∧ (∀ name, name ∈ filenames d →
             name ∈ filenames (conn s) ∨ name ∈ (basename <$> log_files))
  ∧ (∀ name, name ∈ filenames (conn s) → name ∈ filenames d)
  ∧ (x = None → ∀ f, f ∈ log_files → basename f ∈ filenames d).
Proof.
  revert s. induction log_files as [|g fs IH]; intros s H Hs.
  - injection H as <- <-. split_and!; auto. intros _ f Hf. by inversion Hf.
  - cbn [process_files] in H.
    destruct (process_file w colonized cargo_file s g) as [s1|y] eqn:Hfile.
    2:{ injection H as <- <-. split_and!; auto. discriminate. }
    apply process_file_filenames in Hfile.
    assert (Hs1 : NoDup (filenames (conn s1))).
    { destruct Hfile as [[_ ->]|[Hg ->]]; [done|].
      apply NoDup_app. split_and!; [done| |apply NoDup_singleton].
      intros name Hname ->%list_elem_of_singleton. done. }
    destruct (IH s1 H Hs1) as (Hd & Hfrom & Hkeep & Hall).
    assert (Hg1 : basename g ∈ filenames (conn s1)).
    { destruct Hfile as [[? ->]|[_ ->]]; [done|].
      apply elem_of_app. right. by left. }
    assert (Hmono : ∀ name, name ∈ filenames (conn s) →
                            name ∈ filenames (conn s1)).
    { intros name Hname. destruct Hfile as [[_ ->]|[_ ->]]; [done|].
      apply elem_of_app. by left. }
    split_and!; [done| |auto|].
    + intros name [Hname|Hname]%Hfrom.
      * destruct Hfile as [[_ Heq]|[_ Heq]]; rewrite Heq in Hname.
        -- by left.
        -- apply elem_of_app in Hname as [?|Hname].
           ++ by left.
           ++ apply list_elem_of_singleton in Hname as ->. right. cbn. left.
      * right. cbn. by right.
    + intros Hx f [->|Hf]%elem_of_cons; auto.
Qed.

(** X3.  The ingestion ledger after a run.  No file name is recorded twice
    (the primary key of [processed_logs] is never violated, even when
    [log_files] repeats a file or two paths share a base name); every name
    recorded before is still recorded; a new name is the base name of one
    of [log_files]; and after a run that ended normally the base name of
    every one of [log_files] is recorded. *)
Theorem ingestion_ledger_after_run w log_files cfg d d' x :
  process_logs w log_files cfg d = (d', x) →
  NoDup (filenames d) →
  NoDup (filenames d')
  ∧ (∀ name, name ∈ filenames d' →
             name ∈ filenames d ∨ name ∈ (basename <$> log_files))
  ∧ (∀ name, name ∈ filenames d → name ∈ filenames d')
  ∧ (x = None → ∀ f, f ∈ log_files → basename f ∈ filenames d').
Proof.
  intros Hrun Hd. unfold process_logs in Hrun.
  by apply (process_files_filenames _ _ _ _ _ _ _ Hrun).
Qed.

Lemma ingestion_ledger_after_run_witness :
  filenames
    (process_logs journal_world
       [journal_1; "upload/Journal.2025-03-01T100000.01.log"%string; journal_2]
       sample_config empty_db).1
  = ["Journal.2025-03-01T100000.01.log"%string;
     "Journal.2025-03-01T110000.01.log"%string]
  ∧ NoDup
      (filenames
         (process_logs journal_world
            [journal_1; "upload/Journal.2025-03-01T100000.01.log"%string;
             journal_2]
            sample_config empty_db).1).
Proof.
  split; [vm_compute; reflexivity|].
  apply (ingestion_ledger_after_run journal_world
           [journal_1; "upload/Journal.2025-03-01T100000.01.log"%string;
            journal_2]
           sample_config empty_db
           (process_logs journal_world
              [journal_1; "upload/Journal.2025-03-01T100000.01.log"%string;
               journal_2]
              sample_config empty_db).1
           (process_logs journal_world
              [journal_1; "upload/Journal.2025-03-01T100000.01.log"%string;
               journal_2]
              sample_config empty_db).2).
  - vm_compute. reflexivity.
  - constructor.
Defined.

(** ** Files that cannot be read, and files that share a name *)

(** X4.  A log file that cannot be opened counts as processed.  The run
    records it without applying any event, and no later run reads it,
    whatever it then contains. *)
Theorem unreadable_file_is_recorded w cfg d log_file :
  recorded d log_file = false →
  file_lines w 0 log_file = None →
  process_logs w [log_file] cfg d
  = (insert_processed (basename log_file) (datetime_now w 1) d, None)
  ∧ ∀ w' cfg',
      process_logs w' [log_file] cfg'
        (insert_processed (basename log_file) (datetime_now w 1) d)
      = (insert_processed (basename log_file) (datetime_now w 1) d, None).
Proof.
  intros Hrec Hfile. split.
  - unfold process_logs. cbn [process_files]. unfold process_file, recorded in *.
    cbn [start conn clock]. rewrite Hrec. unfold parse_log_file.
    by rewrite Hfile.
  - intros w' cfg'. unfold process_logs. cbn [process_files].
    rewrite process_file_recorded; [done|].
    unfold recorded, is_processed. cbn. apply bool_decide_eq_true.
    rewrite fmap_app. apply elem_of_app. right. by left.
Qed.

Lemma unreadable_file_is_recorded_witness :
  process_logs bare_world [journal_2] sample_config empty_db
  = (insert_processed "Journal.2025-03-01T110000.01.log" "2025-03-02 09:00:00"
       empty_db, None)
  ∧ process_logs journal_world [journal_2] sample_config
      (insert_processed "Journal.2025-03-01T110000.01.log"
         "2025-03-02 09:00:00" empty_db)
    = (insert_processed "Journal.2025-03-01T110000.01.log"
         "2025-03-02 09:00:00" empty_db, None).
Proof.
  destruct (unreadable_file_is_recorded bare_world sample_config empty_db
              journal_2) as [Hfirst Hlater].
  - reflexivity.
  - reflexivity.
  - split; [exact Hfirst|]. exact (Hlater journal_world sample_config).
Defined.

Lemma recorded_same_name d f g :
  basename f = basename g → recorded d f = recorded d g.
Proof. unfold recorded. by intros ->. Qed.

Lemma process_files_drop_known w colonized cargo_file l1 f l2 s :
  recorded (conn s) f = true ∨ (∃ g, g ∈ l1 ∧ basename g = basename f) →
  process_files w colonized cargo_file (l1 ++ f :: l2) s
  = process_files w colonized cargo_file (l1 ++ l2) s.
Proof.
  revert s. induction l1 as [|g l1 IH]; intros s Hknown.
  - destruct Hknown as [Hrec|(g & Hg & _)]; [|by inversion Hg].
    cbn [app process_files]. by rewrite process_file_recorded.
  - cbn [app process_files].
    destruct (process_file w colonized cargo_file s g) as [s1|x] eqn:Hfile;
      [|done].
    apply process_file_records in Hfile as [Hg Hkeep]. apply IH.
    destruct Hknown as [Hrec|(h & [->|Hh]%elem_of_cons & Hname)].
    + left. by apply Hkeep.
    + left. by rewrite <- (recorded_same_name _ _ _ Hname).
    + right. eauto.
Qed.

(** X5.  Files are told apart by base name only.  A path whose base name is
    that of an earlier path of the same run is skipped: the run does what
    it does without it. *)
Theorem same_base_name_is_processed_once w cfg d l1 f l2 g :
  g ∈ l1 → basename g = basename f →
  process_logs w (l1 ++ f :: l2) cfg d = process_logs w (l1 ++ l2) cfg d.
Proof.
  intros Hg Hname. unfold process_logs.
  apply process_files_drop_known. right. eauto.
Qed.

Lemma same_base_name_is_processed_once_witness :
  process_logs journal_world
    ([journal_1; journal_2] ++ "/tmp/Journal.2025-03-01T110000.01.log"%string
       :: [journal_3]) sample_config empty_db
  = process_logs journal_world ([journal_1; journal_2] ++ [journal_3])
      sample_config empty_db.
Proof.
  apply (same_base_name_is_processed_once journal_world sample_config empty_db
           [journal_1; journal_2] "/tmp/Journal.2025-03-01T110000.01.log"
           [journal_3] journal_2).
  - do 2 constructor.
  - vm_compute. reflexivity.
Defined.

(** ** A run that fails *)

Lemma process_files_app w colonized cargo_file l1 l2 s s1 :
  process_each w colonized cargo_file l1 s = Ok s1 →
  process_files w colonized cargo_file (l1 ++ l2) s
  = process_files w colonized cargo_file l2 s1.
Proof.
  unfold process_each. revert s.
  induction l1 as [|f l1 IH]; intros s H.
  - by injection H as <-.
  - cbn [for_each] in H. apply bind_Ok in H as (s' & Hfile & H).
    cbn [app process_files]. rewrite Hfile. by apply IH.
Qed.

(** X6.  An exception loses the failing file only.  When the files
    [before] go through and the next file raises, the run returns what a
    run on [before] alone commits, with the exception; the failing file is
    not recorded, so the next run reads it again, and the files after it
    were not looked at. *)
Theorem failing_file_keeps_earlier_files w cfg d before log_file rest s1 x :
  process_each w (list_to_set (colonized_systems cfg))
    (path_join (log_directory cfg) "Cargo.json") before (start d) = Ok s1 →
  process_file w (list_to_set (colonized_systems cfg))
    (path_join (log_directory cfg) "Cargo.json") s1 log_file = Raise x →
  process_logs w before cfg d = (conn s1, None)
  ∧ process_logs w (before ++ log_file :: rest) cfg d = (conn s1, Some x)
  ∧ recorded (conn s1) log_file = false
  ∧ ∀ f, f ∈ before → recorded (conn s1) f = true.
Proof.
  intros Hbefore Hfile.
  assert (Hrun : process_logs w before cfg d = (conn s1, None)).
  { unfold process_logs. rewrite <- (app_nil_r before).
    by rewrite (process_files_app _ _ _ _ _ _ _ Hbefore). }
  split_and!.
  - done.
  - unfold process_logs. rewrite (process_files_app _ _ _ _ _ _ _ Hbefore).
    cbn [process_files]. by rewrite Hfile.
  - destruct (recorded (conn s1) log_file) eqn:Hrec; [|done].
    by rewrite process_file_recorded in Hfile.
  - intros f Hf. unfold process_logs in Hrun.
    eapply process_files_records; eauto.
Qed.

Lemma failing_file_keeps_earlier_files_witness :
  process_logs journal_world [journal_1; journal_2] sample_config empty_db
  = (conn after_two_journals, None)
  ∧ process_logs journal_world
      ([journal_1; journal_2] ++ journal_3 :: ["logs/Journal.later.log"%string])
      sample_config empty_db
    = (conn after_two_journals, Some (KeyError "StationName"))
  ∧ length (purchases (conn after_two_journals)) = 9%nat.
Proof.
  destruct (failing_file_keeps_earlier_files journal_world sample_config
              empty_db [journal_1; journal_2] journal_3
              ["logs/Journal.later.log"%string] after_two_journals
              (KeyError "StationName")) as (Hrun & Hfail & _).
  - vm_compute. reflexivity.
  - vm_compute. reflexivity.
  - split; [exact Hrun|]. split; [exact Hfail|]. vm_compute. reflexivity.
Defined.

(** ** One record per sale *)

Lemma sql_bind_int n :
  - 2 ^ 63 ≤ n < 2 ^ 63 → sql_bind (JInt n) = Ok (PInt n).
Proof.
  intros [Hlo Hhi]. unfold sql_bind.
  apply Z.leb_le in Hlo. apply Z.ltb_lt in Hhi. by rewrite Hlo, Hhi.
Qed.

(** X7.  A [MarketSell] changes at most one record.  For a sale of [n]
    units of the type [x], a string, with a string timestamp, under no
    docking context or one whose station name is a string: with no docking
    context, or when no open record holds [n] units of [x], the ledger is
    unchanged; otherwise the first such record in the table, and only that
    one, becomes sold ([sold = 1]) at the current station with the
    timestamp of the event, its other columns as they were.  The docking
    context and the cargo snapshot are untouched. *)
Theorem sale_marks_first_match w colonized cargo_file s e (x t : string) n :
  e !! "event" = Some (JStr "MarketSell") →
  e !! "timestamp" = Some (JStr t) →
  get_or e "Type" (JStr "Unknown") = JStr x →
  get_or e "Count" (JInt 0) = JInt n →
  - 2 ^ 63 ≤ n < 2 ^ 63 →
  (∀ ds, docked_station s = Some ds → ∃ B, StationName ds = JStr B) →
  ∃ s',
    process_event w colonized cargo_file s (JObj e) = Ok s'
    ∧ docked_station s' = docked_station s
    ∧ cargo_count s' = cargo_count s
    ∧ ((purchases (conn s') = purchases (conn s)
        ∧ (docked_station s = None
           ∨ ∀ r, r ∈ purchases (conn s) → ¬ open_lot x n r))
       ∨ ∃ ds (B : string) i r r',
           docked_station s = Some ds ∧ StationName ds = JStr B
           ∧ purchases (conn s) !! i = Some r ∧ open_lot x n r
           ∧ (∀ j r0, (j < i)%nat → purchases (conn s) !! j = Some r0 →
                      ¬ open_lot x n r0)
           ∧ purchases (conn s') = <[i:=r']> (purchases (conn s))
           ∧ same_purchase r r'
           ∧ delivered r' = 0 ∧ delivered_to r' = delivered_to r
           ∧ delivered_time r' = delivered_time r
           ∧ sold r' = 1 ∧ sold_at r' = SText B ∧ sold_time r' = SText t).
Proof.
  intros He Hts Hx Hn Hrange Hname.
  rewrite (step_MarketSell _ _ _ _ _ _ He Hts).
  destruct (docked_station s) as [ds|] eqn:Hds.
  2:{ exists s. rewrite Hds. split_and!; try done. left. auto. }
  destruct (Hname ds eq_refl) as [B HB].
  unfold update_sold. rewrite HB, Hx, Hn, (sql_bind_int n Hrange).
  cbn [sql_bind mbind result_bind text_affinity integer_affinity].
  eexists. split; [reflexivity|].
  cbn [docked_station cargo_count conn set_conn purchases set_purchases].
  split; [done|]. split; [done|].
  destruct (update_first_spec (matches (SText x) (SInt n))
              (mark_sold (SText B) (SText t)) (purchases (conn s)))
    as [[Hall ->]|(i & r & Hi & Hr & Hfirst & ->)].
  - left. split; [done|]. right. intros r Hin Hopen.
    rewrite Forall_forall in Hall. specialize (Hall r Hin).
    apply matches_fields in Hopen. congruence.
  - right. exists ds, B, i, r, (mark_sold (SText B) (SText t) r).
    split; [done|]. split; [done|]. split; [done|].
    split; [by apply matches_fields|]. split.
    { intros j r0 Hj Hr0 Hopen. apply matches_fields in Hopen.
      specialize (Hfirst j r0 Hj Hr0). congruence. }
    split; [done|]. split; [by repeat split|].
    apply matches_fields in Hr as (_ & _ & Hd & _). by repeat split.
Qed.

Lemma sale_marks_first_match_witness :
  process_event bare_world ∅ "Cargo.json" gold_before_sale
    (sell_gold 5 "2025-03-01T11:10:00Z") = Ok gold_after_sale
  ∧ ∃ s',
      process_event bare_world ∅ "Cargo.json" gold_before_sale
        (sell_gold 5 "2025-03-01T11:10:00Z") = Ok s'
      ∧ docked_station s' = docked_station gold_before_sale
      ∧ cargo_count s' = cargo_count gold_before_sale
      ∧ ((purchases (conn s') = purchases (conn gold_before_sale)
          ∧ (docked_station gold_before_sale = None
             ∨ ∀ r, r ∈ purchases (conn gold_before_sale) →
                    ¬ open_lot "gold" 5 r))
         ∨ ∃ ds (B : string) i r r',
             docked_station gold_before_sale = Some ds
             ∧ StationName ds = JStr B
             ∧ purchases (conn gold_before_sale) !! i = Some r
             ∧ open_lot "gold" 5 r
             ∧ (∀ j r0, (j < i)%nat →
                  purchases (conn gold_before_sale) !! j = Some r0 →
                  ¬ open_lot "gold" 5 r0)
             ∧ purchases (conn s')
               = <[i:=r']> (purchases (conn gold_before_sale))
             ∧ same_purchase r r'
             ∧ delivered r' = 0 ∧ delivered_to r' = delivered_to r
             ∧ delivered_time r' = delivered_time r
             ∧ sold r' = 1 ∧ sold_at r' = SText B
             ∧ sold_time r' = SText "2025-03-01T11:10:00Z").
Proof.
  split; [vm_compute; reflexivity|].
  apply (sale_marks_first_match bare_world ∅ "Cargo.json" gold_before_sale
           (fields (sell_gold 5 "2025-03-01T11:10:00Z"))
           "gold" "2025-03-01T11:10:00Z" 5).
  - reflexivity.
  - reflexivity.
  - reflexivity.
  - reflexivity.
  - split; [discriminate|reflexivity].
  - intros ds [= <-]. by exists "Beta Port"%string.
Defined.

(** ** What a purchase is inserted with *)

(** X8.  The defaults of a [MarketBuy].  Under a docking context whose
    station and system names are strings, with an id left, a [MarketBuy]
    with a string timestamp whose names are strings or missing and whose
    count and prices are 64-bit integers or missing appends one row.  Its
    item is [Type_Localised] unless that is missing or empty, then [Type]
    unless that is missing or empty, then the text ["Unknown"]; a missing
    [Count], [BuyPrice] or [TotalCost] is stored as 0, each on its own;
    the row is open, has the next id and carries the station and system
    of the docking context and the timestamp of the event. *)
Theorem market_buy_defaults w colonized cargo_file s ds e
    (A sys t L T : string) c p q :
  docked_station s = Some ds →
  StationName ds = JStr A → StarSystem ds = JStr sys →
  e !! "event" = Some (JStr "MarketBuy") →
  e !! "timestamp" = Some (JStr t) →
  text_field e "Type_Localised" L → text_field e "Type" T →
  int_field e "Count" c → int_field e "BuyPrice" p →
  int_field e "TotalCost" q →
  next_rowid (conn s) < 2 ^ 63 →
  process_event w colonized cargo_file s (JObj e) =
    Ok (set_conn
          {| purchases := purchases (conn s) ++
               [ {| rowid := next_rowid (conn s);
                    item := SText (if bool_decide (L = EmptyString)
                                   then if bool_decide (T = EmptyString)
                                        then "Unknown"
                                        else T
                                   else L);
                    count := SInt c; buy_price := SInt p;
                    total_cost := SInt q;
                    bought_at := SText A; bought_system := SText sys;
                    bought_time := SText t;
                    delivered := 0; delivered_to := SNull;
                    delivered_time := SNull;
                    sold := 0; sold_at := SNull; sold_time := SNull |} ];
             purchases_seq := next_rowid (conn s);
             processed_logs := processed_logs (conn s) |} s).
Proof.
  intros Hds HA Hsys He Hts HL HT Hc Hp Hq Hroom.
  rewrite (step_MarketBuy _ _ _ _ _ _ He Hts), Hds.
  assert (Hint : ∀ key n, int_field e key n →
            sql_bind (get_or e key (JInt 0)) = Ok (PInt n)).
  { intros key n [[Hk Hrange]|[Hk ->]]; unfold get_or; rewrite Hk;
      cbn [from_option id]; [by apply sql_bind_int|reflexivity]. }
  assert (Hitem :
    py_or (py_or (get e "Type_Localised") (get e "Type")) (JStr "Unknown")
    = JStr (if bool_decide (L = EmptyString)
            then if bool_decide (T = EmptyString) then "Unknown" else T
            else L)).
  { assert (Htext : ∀ key x, text_field e key x →
              (x = EmptyString ∧ truthy (get e key) = false)
              ∨ (x ≠ EmptyString ∧ get e key = JStr x)).
    { intros key x [Hk|[Hk ->]]; unfold get; rewrite Hk; cbn [from_option id].
      - destruct (decide (x = EmptyString)) as [->|Hx]; [by left|by right].
      - by left. }
    destruct (Htext _ _ HL) as [[-> HfL]|[HneL ->]].
    - rewrite bool_decide_eq_true_2 by done.
      unfold py_or at 2. rewrite HfL.
      destruct (Htext _ _ HT) as [[-> HfT]|[HneT ->]].
      + rewrite bool_decide_eq_true_2 by done. unfold py_or. by rewrite HfT.
      + rewrite bool_decide_eq_false_2 by done. by apply py_or_str.
    - rewrite bool_decide_eq_false_2 by done. by rewrite !py_or_str. }
  rewrite Hitem, HA, Hsys.
  match goal with
  | |- context [insert_purchase w (JStr ?name)] =>
      by rewrite (insert_purchase_room w (JStr name) _ _ _
                    (JStr A) (JStr sys) (JStr t) (conn s)
                    (PText name) (PInt c) (PInt p) (PInt q)
                    (PText A) (PText sys) (PText t)
                    eq_refl (Hint _ _ Hc) (Hint _ _ Hp) (Hint _ _ Hq)
                    eq_refl eq_refl eq_refl Hroom)
  end.
Qed.

Lemma market_buy_defaults_witness :
  process_event bare_world ∅ "Cargo.json" (with_ledger [] (Some alpha) None)
    (obj [("timestamp", JStr "2025-03-01T10:05:00Z");
          ("event", JStr "MarketBuy"); ("Type_Localised", JStr EmptyString);
          ("BuyPrice", JInt 9000); ("MarketID", JInt 128016640)])
  = Ok (with_ledger
          [ {| rowid := 1; item := SText "Unknown"; count := SInt 0;
               buy_price := SInt 9000; total_cost := SInt 0;
               bought_at := SText "Alpha Hub"; bought_system := SText "Sol";
               bought_time := SText "2025-03-01T10:05:00Z";
               delivered := 0; delivered_to := SNull; delivered_time := SNull;
               sold := 0; sold_at := SNull; sold_time := SNull |} ]
          (Some alpha) None).
Proof.
  apply (market_buy_defaults bare_world ∅ "Cargo.json"
           (with_ledger [] (Some alpha) None) alpha
           (list_to_map
              [("timestamp", JStr "2025-03-01T10:05:00Z");
               ("event", JStr "MarketBuy");
               ("Type_Localised", JStr EmptyString);
               ("BuyPrice", JInt 9000);
               ("MarketID", JInt 128016640)])
           "Alpha Hub" "Sol" "2025-03-01T10:05:00Z" EmptyString EmptyString
           0 9000 0).
  - reflexivity.
  - reflexivity.
  - reflexivity.
  - reflexivity.
  - reflexivity.
  - left. reflexivity.
  - right. split; reflexivity.
  - right. split; reflexivity.
  - left. split; [reflexivity|]. split; [discriminate|reflexivity].
  - right. split; reflexivity.
  - vm_compute. reflexivity.
Defined.

(** ** Values the store refuses *)

(** X9.  A value the store refuses is survived by a purchase and fatal to
    a sale.  When [Count] is a list or an object, a [MarketBuy] under a
    docking context is skipped and the state is unchanged, whereas a
    [MarketSell] raises the error of the store, which ends the run. *)
Theorem refused_value_skips_buy_aborts_sale w colonized cargo_file s ds e ts
    st tm it :
  docked_station s = Some ds →
  e !! "timestamp" = Some ts →
  storable (get_or e "Count" (JInt 0)) = false →
  (∀ z, get_or e "Count" (JInt 0) ≠ JInt z) →
  (e !! "event" = Some (JStr "MarketBuy") →
   sql_bind (py_or (py_or (get e "Type_Localised") (get e "Type"))
               (JStr "Unknown")) = Ok it →
   process_event w colonized cargo_file s (JObj e) = Ok s)
  ∧ (e !! "event" = Some (JStr "MarketSell") →
     sql_bind (StationName ds) = Ok st → sql_bind ts = Ok tm →
     sql_bind (get_or e "Type" (JStr "Unknown")) = Ok it →
     process_event w colonized cargo_file s (JObj e) = Raise SqliteError).
Proof.
  intros Hds Hts Hrefused Hint.
  assert (Hbind : sql_bind (get_or e "Count" (JInt 0)) = Raise SqliteError).
  { unfold storable in Hrefused.
    destruct (get_or e "Count" (JInt 0)) as [| |z| | |]; try done.
    by destruct (Hint z). }
  split.
  - intros He Hit. rewrite (step_MarketBuy _ _ _ _ _ ts He Hts), Hds.
    unfold insert_purchase. by rewrite Hit, Hbind.
  - intros He Hst Htm Hit. rewrite (step_MarketSell _ _ _ _ _ ts He Hts), Hds.
    unfold update_sold. by rewrite Hst, Htm, Hit, Hbind.
Qed.

Lemma refused_value_skips_buy_aborts_sale_witness :
  process_event bare_world ∅ "Cargo.json"
    (with_ledger [gold_row 0 SNull SNull] (Some alpha) None)
    (JObj buy_with_list_count)
  = Ok (with_ledger [gold_row 0 SNull SNull] (Some alpha) None)
  ∧ process_event bare_world ∅ "Cargo.json"
      (with_ledger [gold_row 0 SNull SNull] (Some alpha) None)
      (JObj sell_with_list_count)
    = Raise SqliteError.
Proof.
  split.
  - apply (refused_value_skips_buy_aborts_sale bare_world ∅ "Cargo.json"
             (with_ledger [gold_row 0 SNull SNull] (Some alpha) None) alpha
             buy_with_list_count (JStr "2025-03-01T10:05:00Z")
             (PText "Alpha Hub") (PText "2025-03-01T10:05:00Z")
             (PText "gold")); try reflexivity.
    intros z. discriminate.
  - apply (refused_value_skips_buy_aborts_sale bare_world ∅ "Cargo.json"
             (with_ledger [gold_row 0 SNull SNull] (Some alpha) None) alpha
             sell_with_list_count (JStr "2025-03-01T10:06:00Z")
             (PText "Alpha Hub") (PText "2025-03-01T10:06:00Z")
             (PText "gold")); try reflexivity.
    intros z. discriminate.
Defined.

(** ** Events the dispatcher ignores *)

(** X10.  Every other record is ignored.  A record with an ["event"] and a
    ["timestamp"] whose kind is none of [Docked], [MarketBuy],
    [MarketSell], [Cargo], and is not a [CargoDepot] with [UpdateType]
    equal to ["Deliver"], leaves the whole state as it is: a [CargoDepot]
    that collects or abandons cargo does nothing, and the docking context
    survives [Undocked]. *)
Theorem other_events_change_nothing w colonized cargo_file s e kind ts :
  e !! "event" = Some kind →
  e !! "timestamp" = Some ts →
  (∀ name, kind = JStr name →
     (name ∉ ["Docked"; "MarketBuy"; "MarketSell"; "Cargo"]%string)
     ∧ (name = "CargoDepot"%string → get e "UpdateType" ≠ JStr "Deliver")) →
  process_event w colonized cargo_file s (JObj e) = Ok s.
Proof.
  intros He Hts Hkind.
  assert (Hne : ∀ name,
            name ∈ ["Docked"; "MarketBuy"; "MarketSell"; "Cargo"]%string →
            py_eq kind (JStr name) = false).
  { intros name Hin. destruct (py_eq kind (JStr name)) eqn:Heq; [|done].
    apply py_eq_str in Heq. by destruct (Hkind name Heq). }
  apply (step_other _ _ _ _ _ _ ts He Hts).
  - apply Hne. repeat constructor.
  - apply Hne. repeat constructor.
  - apply Hne. repeat constructor.
  - destruct (py_eq kind (JStr "CargoDepot")) eqn:Heq; [|done].
    apply py_eq_str in Heq. destruct (Hkind _ Heq) as [_ Hupdate].
    cbn [andb].
    destruct (py_eq (get e "UpdateType") (JStr "Deliver")) eqn:Hu; [|done].
    apply py_eq_str in Hu. by destruct Hupdate.
  - apply Hne. repeat constructor.
Qed.

Lemma other_events_change_nothing_witness :
  process_event bare_world ∅ "Cargo.json"
    (with_ledger [gold_row 0 SNull SNull] (Some alpha) (Some 5))
    (JObj undocked)
  = Ok (with_ledger [gold_row 0 SNull SNull] (Some alpha) (Some 5))
  ∧ process_event bare_world ∅ "Cargo.json"
      (with_ledger [gold_row 0 SNull SNull] (Some alpha) (Some 5))
      (JObj depot_collect)
    = Ok (with_ledger [gold_row 0 SNull SNull] (Some alpha) (Some 5)).
Proof.
  split.
  - apply (other_events_change_nothing bare_world ∅ "Cargo.json"
             (with_ledger [gold_row 0 SNull SNull] (Some alpha) (Some 5))
             undocked (JStr "Undocked") (JStr "2025-03-01T10:30:00Z"));
      [reflexivity|reflexivity|].
    intros name [= <-]. split; [|discriminate].
    intros Hin. repeat (apply elem_of_cons in Hin as [Hin|Hin];
                        [discriminate Hin|]). by inversion Hin.
  - apply (other_events_change_nothing bare_world ∅ "Cargo.json"
             (with_ledger [gold_row 0 SNull SNull] (Some alpha) (Some 5))
             depot_collect (JStr "CargoDepot") (JStr "2025-03-01T10:31:00Z"));
      [reflexivity|reflexivity|].
    intros name [= <-]. split; [|intros _; vm_compute; discriminate].
    intros Hin. repeat (apply elem_of_cons in Hin as [Hin|Hin];
                        [discriminate Hin|]). by inversion Hin.
Defined.

(** ** Mission deliveries *)

(** X11.  A mission delivery is matched on the localized name and on the
    count.  With an id left, a purchase of [n] units inserted under the
    localized name [L] at station [A] is open; a [CargoDepot] delivery of
    [m] units whose localized cargo name is [L], whatever the raw types
    are, marks the first open record of [m] units of [L].  On a ledger with
    no other such record: when [m] is [n] the purchase becomes delivered
    ([delivered = 1]) at [A] with the timestamp of the delivery, and when
    [m] is not [n] it stays open. *)
Theorem delivery_matches_localized_name w colonized cargo_file s ds
    e1 e2 (A sys L t1 t2 : string) n m :
  docked_station s = Some ds →
  StationName ds = JStr A → StarSystem ds = JStr sys →
  - 2 ^ 63 ≤ n < 2 ^ 63 →
  - 2 ^ 63 ≤ m < 2 ^ 63 →
  next_rowid (conn s) < 2 ^ 63 →
  e1 !! "event" = Some (JStr "MarketBuy") →
  e1 !! "timestamp" = Some (JStr t1) →
  e1 !! "Type_Localised" = Some (JStr L) → L ≠ EmptyString →
  e1 !! "Count" = Some (JInt n) →
  storable (get_or e1 "BuyPrice" (JInt 0)) = true →
  storable (get_or e1 "TotalCost" (JInt 0)) = true →
  e2 !! "event" = Some (JStr "CargoDepot") →
  e2 !! "UpdateType" = Some (JStr "Deliver") →
  e2 !! "timestamp" = Some (JStr t2) →
  e2 !! "CargoType_Localised" = Some (JStr L) →
  e2 !! "Count" = Some (JInt m) →
  ∃ s' r,
    for_each (process_event w colonized cargo_file) [JObj e1; JObj e2] s
    = Ok s'
    ∧ item r = SText L ∧ count r = SInt n
    ∧ bought_at r = SText A ∧ bought_time r = SText t1
    ∧ delivered r = 0 ∧ sold r = 0
    ∧ purchases (conn s')
      = update_first (matches (SText L) (SInt m))
          (mark_delivered (SText A) (SText t2)) (purchases (conn s) ++ [r])
    ∧ (Forall (λ r, matches (SText L) (SInt m) r = false) (purchases (conn s)) →
       (m = n →
        ∃ r', purchases (conn s') = purchases (conn s) ++ [r']
              ∧ same_purchase r r'
              ∧ delivered r' = 1 ∧ delivered_to r' = SText A
              ∧ delivered_time r' = SText t2
              ∧ sold r' = 0 ∧ sold_at r' = SNull ∧ sold_time r' = SNull)
       ∧ (m ≠ n → purchases (conn s') = purchases (conn s) ++ [r])).
Proof.
  intros Hds HA Hsys Hn Hm Hroom He1 Ht1 HL1 HL Hc1 Hp Hc He2 Hu2 Ht2 HL2 Hc2.
  apply storable_bind in Hp as [bp Hp], Hc as [tc Hc].
  cbn [for_each].
  rewrite (step_MarketBuy _ _ _ _ _ _ He1 Ht1), Hds.
  unfold get at 1. rewrite HL1. cbn [from_option id].
  rewrite !py_or_str by done.
  unfold get_or at 1. rewrite Hc1. cbn [from_option id].
  rewrite HA, Hsys.
  rewrite (insert_purchase_room w _ _ _ _ _ _ _ (conn s)
             (PText L) (PInt n) bp tc (PText A) (PText sys) (PText t1))
    by (done || by apply sql_bind_int).
  cbn [mbind result_bind text_affinity integer_affinity].
  rewrite (step_CargoDepot_Deliver _ _ _ _ _ _ He2 Ht2 Hu2).
  cbn [docked_station set_conn]. rewrite Hds.
  unfold get at 1. rewrite HL2. cbn [from_option id].
  rewrite !py_or_str by done.
  unfold get_or. rewrite Hc2. cbn [from_option id].
  unfold update_delivered. rewrite HA, (sql_bind_int m Hm).
  cbn [sql_bind mbind result_bind conn purchases set_conn
       text_affinity integer_affinity].
  match goal with
  | |- context [purchases (conn s) ++ [?row]] => set (r := row)
  end.
  eexists _, r. split; [reflexivity|].
  cbn [conn set_conn set_purchases purchases].
  do 7 (split; [reflexivity|]).
  intros Hmiss. rewrite (update_first_app_miss _ _ _ _ Hmiss).
  cbn [update_first]. split.
  - intros ->.
    assert (Hr : matches (SText L) (SInt n) r = true)
      by by apply matches_fields.
    rewrite Hr. eexists. split; [reflexivity|]. by repeat split.
  - intros Hne.
    destruct (matches (SText L) (SInt m) r) eqn:Hr; [|done].
    apply matches_fields in Hr as (_ & [= Heq] & _). congruence.
Qed.

Lemma delivery_matches_localized_name_witness :
  for_each (process_event bare_world ∅ "Cargo.json")
    [buy_localised; JObj deliver_localised] (with_ledger [] (Some beta) None)
  = Ok (with_ledger
          [ {| rowid := 1; item := SText "Gold"; count := SInt 5;
               buy_price := SInt 9000; total_cost := SInt 45000;
               bought_at := SText "Beta Port";
               bought_system := SText "Achenar";
               bought_time := SText "2025-03-01T10:05:00Z";
               delivered := 1; delivered_to := SText "Beta Port";
               delivered_time := SText "2025-03-01T11:07:00Z";
               sold := 0; sold_at := SNull; sold_time := SNull |} ]
          (Some beta) None)
  ∧ for_each (process_event bare_world ∅ "Cargo.json")
      [buy_localised; JObj deliver_three] (with_ledger [] (Some beta) None)
    = Ok (with_ledger
            [ {| rowid := 1; item := SText "Gold"; count := SInt 5;
                 buy_price := SInt 9000; total_cost := SInt 45000;
                 bought_at := SText "Beta Port";
                 bought_system := SText "Achenar";
                 bought_time := SText "2025-03-01T10:05:00Z";
                 delivered := 0; delivered_to := SNull;
                 delivered_time := SNull;
                 sold := 0; sold_at := SNull; sold_time := SNull |} ]
            (Some beta) None)
  ∧ (∃ s' r',
       for_each (process_event bare_world ∅ "Cargo.json")
         [buy_localised; JObj deliver_localised]
         (with_ledger [] (Some beta) None) = Ok s'
       ∧ purchases (conn s') = [] ++ [r']
       ∧ item r' = SText "Gold"
       ∧ delivered r' = 1 ∧ delivered_to r' = SText "Beta Port"
       ∧ delivered_time r' = SText "2025-03-01T11:07:00Z"
       ∧ sold r' = 0)
  ∧ (∃ s' r,
       for_each (process_event bare_world ∅ "Cargo.json")
         [buy_localised; JObj deliver_three]
         (with_ledger [] (Some beta) None) = Ok s'
       ∧ purchases (conn s') = [] ++ [r]
       ∧ count r = SInt 5 ∧ delivered r = 0 ∧ sold r = 0).
Proof.
  split; [vm_compute; reflexivity|]. split; [vm_compute; reflexivity|]. split.
  - destruct (delivery_matches_localized_name bare_world ∅ "Cargo.json"
                (with_ledger [] (Some beta) None) beta
                (fields buy_localised) deliver_localised
                "Beta Port" "Achenar" "Gold"
                "2025-03-01T10:05:00Z" "2025-03-01T11:07:00Z" 5 5)
      as (s' & r & Hrun & Hitem & _ & _ & _ & _ & _ & _ & Hfresh);
      try reflexivity.
    + split; [discriminate|reflexivity].
    + split; [discriminate|reflexivity].
    + discriminate.
    + destruct (Hfresh (Forall_nil_2 _)) as [Hsame _].
      destruct (Hsame eq_refl)
        as (r' & Hl & (_ & Hi & _) & Hd & Hto & Htime & Hs & _).
      exists s', r'. split; [exact Hrun|]. split; [exact Hl|].
      split; [by rewrite Hi|]. exact (conj Hd (conj Hto (conj Htime Hs))).
  - destruct (delivery_matches_localized_name bare_world ∅ "Cargo.json"
                (with_ledger [] (Some beta) None) beta
                (fields buy_localised) deliver_three
                "Beta Port" "Achenar" "Gold"
                "2025-03-01T10:05:00Z" "2025-03-01T11:07:00Z" 5 3)
      as (s' & r & Hrun & _ & Hcount & _ & _ & Hd & Hs & _ & Hfresh);
      try reflexivity.
    + split; [discriminate|reflexivity].
    + split; [discriminate|reflexivity].
    + discriminate.
    + destruct (Hfresh (Forall_nil_2 _)) as [_ Hother].
      exists s', r. split; [exact Hrun|]. split; [apply Hother; discriminate|].
      exact (conj Hcount (conj Hd Hs)).
Defined.

(** ** The bulk delivery *)

Lemma update_all_open_none st tm l :
  Forall (λ r, is_open r = false)
    (update_all is_open (mark_delivered st tm) l).
Proof.
  apply Forall_forall. intros r' (r & -> & _)%list_elem_of_fmap.
  destruct (is_open r) eqn:Ho; [|done].
  unfold is_open. cbn [delivered mark_delivered]. done.
Qed.

(** X12.  A [Cargo] event is all or nothing.  Whenever it changes the
    ledger, no open record is left: every record is then sold or
    delivered. *)
Theorem cargo_event_leaves_no_open_record w colonized cargo_file s e s' :
  e !! "event" = Some (JStr "Cargo") →
  process_event w colonized cargo_file s (JObj e) = Ok s' →
  purchases (conn s') ≠ purchases (conn s) →
  Forall (λ r, is_open r = false) (purchases (conn s')).
Proof.
  intros He Hstep Hchanged.
  destruct (e !! "timestamp") as [ts|] eqn:Hts.
  2:{ by rewrite (step_no_timestamp _ _ _ _ _ _ He Hts) in Hstep. }
  rewrite (step_Cargo _ _ _ _ _ ts He Hts) in Hstep.
  apply bind_Ok in Hstep as (report & _ & Hstep).
  apply bind_Ok in Hstep as (n & _ & Hstep).
  apply bind_Ok in Hstep as (s2 & H2 & [= <-]).
  cbn [conn set_cargo_count] in *.
  destruct (_ && _) in H2; [|by injection H2 as <-].
  destruct (docked_station s) as [ds|]; [|by injection H2 as <-].
  apply bind_Ok in H2 as ([] & _ & H2); [|by injection H2 as <-].
  unfold update_delivered_all in H2. inv_bind.
  cbn [conn set_conn purchases set_purchases]. apply update_all_open_none.
Qed.

Lemma cargo_event_leaves_no_open_record_witness :
  Forall (λ r, is_open r = false)
    (purchases (conn (tick (tick (with_ledger
       [mark_delivered (SText "Beta Port") (SText "2025-03-01T11:30:00Z")
          (gold_row 0 SNull SNull);
        mark_delivered (SText "Beta Port") (SText "2025-03-01T11:30:00Z")
          silver_row]
       (Some beta) (Some 0)))))).
Proof.
  apply (cargo_event_leaves_no_open_record hold_world {[164098653]}
           "logs/Cargo.json"
           (tick (with_ledger [gold_row 0 SNull SNull; silver_row]
                    (Some beta) (Some 10)))
           (fields (cargo_event "2025-03-01T11:30:00Z"))).
  - reflexivity.
  - vm_compute. reflexivity.
  - discriminate.
Defined.

(** ** Cargo reports of the wrong shape *)

(** X13.  Only a missing or undecodable [Cargo.json] counts as empty.  When
    the file decodes to something that is not an object (a list, a number,
    a string, [null]), every [Cargo] event raises [AttributeError], which
    ends the run. *)
Theorem cargo_report_not_an_object w colonized cargo_file s e ts v :
  e !! "event" = Some (JStr "Cargo") →
  e !! "timestamp" = Some ts →
  load_json w (clock s) cargo_file = Some v →
  is_object v = false →
  process_event w colonized cargo_file s (JObj e) = Raise AttributeError.
Proof.
  intros He Hts Hload Hv. rewrite (step_Cargo _ _ _ _ _ ts He Hts).
  unfold parse_cargo_file. rewrite Hload. by destruct v.
Qed.

(** X14.  The first entry of the inventory that is not an object with a
    numeric count stops the sum.  After entries that count, an entry that
    is an object (its [Count] is then [null], a string, a list or an
    object) raises [TypeError], and an entry that is not an object raises
    [AttributeError]; what follows the entry is not looked at. *)
Theorem total_stops_at_bad_entry d good counts bad rest :
  d !! "Inventory" = Some (JArr (good ++ bad :: rest)) →
  Forall2 (λ it c, entry_count it = Some c) good counts →
  entry_count bad = None →
  get_total_cargo_count (JObj d)
  = Raise (if is_object bad then TypeError else AttributeError).
Proof.
  intros Hd Hgood Hbad. unfold get_total_cargo_count.
  replace (get_or d "Inventory" (JArr [])) with (JArr (good ++ bad :: rest))
    by (unfold get_or; by rewrite Hd).
  cbn [py_iter mbind result_bind].
  rewrite for_each_app, (sum_loop_counts _ _ 0 Hgood).
  cbn [mbind result_bind for_each]. unfold entry_count in Hbad.
  destruct bad as [| | | | |i]; try done. cbn [is_object].
  by destruct (get_or i "Count" (JInt 0)).
Qed.

Lemma cargo_report_not_an_object_witness :
  process_event list_world ∅ "logs/Cargo.json"
    (with_ledger [gold_row 0 SNull SNull] (Some beta) (Some 5))
    (cargo_event "2025-03-01T11:20:00Z")
  = Raise AttributeError.
Proof.
  apply (cargo_report_not_an_object list_world ∅ "logs/Cargo.json"
           (with_ledger [gold_row 0 SNull SNull] (Some beta) (Some 5))
           (fields (cargo_event "2025-03-01T11:20:00Z"))
           (JStr "2025-03-01T11:20:00Z") (JArr [])); reflexivity.
Defined.

Lemma total_stops_at_bad_entry_witness :
  get_total_cargo_count
    (obj [("Inventory",
           JArr ([obj [("Name", JStr "gold"); ("Count", JInt 5)]]
                 ++ obj [("Name", JStr "silver"); ("Count", JNull)]
                 :: [obj [("Name", JStr "tea"); ("Count", JInt 1)]]))])
  = Raise TypeError
  ∧ get_total_cargo_count
      (obj [("Inventory",
             JArr ([obj [("Name", JStr "gold"); ("Count", JInt 5)]]
                   ++ JStr "silver" :: []))])
    = Raise AttributeError.
Proof.
  split.
  - apply (total_stops_at_bad_entry
             (list_to_map
                [("Inventory",
                  JArr ([obj [("Name", JStr "gold"); ("Count", JInt 5)]]
                        ++ obj [("Name", JStr "silver"); ("Count", JNull)]
                        :: [obj [("Name", JStr "tea"); ("Count", JInt 1)]]))])
             [obj [("Name", JStr "gold"); ("Count", JInt 5)]] [5]
             (obj [("Name", JStr "silver"); ("Count", JNull)])
             [obj [("Name", JStr "tea"); ("Count", JInt 1)]]).
    + reflexivity.
    + repeat constructor.
    + reflexivity.
  - apply (total_stops_at_bad_entry
             (list_to_map
                [("Inventory",
                  JArr ([obj [("Name", JStr "gold"); ("Count", JInt 5)]]
                        ++ JStr "silver" :: []))])
             [obj [("Name", JStr "gold"); ("Count", JInt 5)]] [5]
             (JStr "silver") []).
    + reflexivity.
    + repeat constructor.
    + reflexivity.
Defined.

(** ** Scanning the log directory *)

(** X15.  The journals are processed in ascending order of their paths,
    whatever order the directory lists them in: [scan_directory] does what
    [process_logs] does on the ascending arrangement of the files found. *)
Theorem scan_processes_in_name_order h w d cfg log_files :
  load_config h = inr cfg →
  isdir h (log_directory cfg) = true →
  log_files ≡ₚ glob h (path_join (log_directory cfg) "Journal.*.log") →
  Sorted String.le log_files →
  scan_directory h w d
  = match process_logs w log_files cfg d with
    | (d', Some x) => (d', Some (Propagated x))
    | (d', None) => (d', None)
    end.
Proof.
  intros Hcfg Hdir Hperm Hsorted. unfold scan_directory.
  rewrite Hcfg, Hdir. cbn [negb].
  replace (merge_sort String.le
             (glob h (path_join (log_directory cfg) "Journal.*.log")))
    with log_files; [done|].
  apply (Sorted_unique String.le); [done|apply Sorted_merge_sort, _|].
  by rewrite merge_sort_Permutation.
Qed.

Lemma process_files_all_recorded w colonized cargo_file log_files s :
  Forall (λ f, recorded (conn s) f = true) log_files →
  process_files w colonized cargo_file log_files s = (conn s, None).
Proof.
  induction 1 as [|f fs Hf _ IH]; [done|].
  cbn [process_files]. by rewrite process_file_recorded.
Qed.

(** X16.  Scanning again changes nothing.  After a scan that ended normally,
    a scan under the same configuration that finds no file the first one
    did not find leaves the database as it is, whatever the files now
    contain. *)
Theorem rescan_changes_nothing h w d d1 h' w' cfg :
  scan_directory h w d = (d1, None) →
  load_config h = inr cfg → load_config h' = inr cfg →
  isdir h' (log_directory cfg) = true →
  (∀ f, f ∈ glob h' (path_join (log_directory cfg) "Journal.*.log") →
        f ∈ glob h (path_join (log_directory cfg) "Journal.*.log")) →
  scan_directory h' w' d1 = (d1, None).
Proof.
  intros Hscan Hcfg Hcfg' Hdir' Hsub. unfold scan_directory in *.
  rewrite Hcfg in Hscan. rewrite Hcfg', Hdir'. cbn [negb].
  destruct (isdir h (log_directory cfg)); [|discriminate]. cbn [negb] in Hscan.
  destruct (process_logs w _ cfg d) as [d2 [x|]] eqn:Hrun; [discriminate|].
  injection Hscan as ->.
  unfold process_logs in *.
  rewrite process_files_all_recorded; [done|].
  apply Forall_forall. intros f Hf. cbn [start conn].
  eapply process_files_records; [exact Hrun|]. left.
  rewrite merge_sort_Permutation. apply Hsub.
  by rewrite merge_sort_Permutation in Hf.
Qed.

Lemma scan_processes_in_name_order_witness :
  scan_directory sample_host journal_world empty_db = (after_first_run, None)
  ∧ length (purchases after_first_run) = 9%nat.
Proof.
  split; [|vm_compute; reflexivity].
  rewrite (scan_processes_in_name_order sample_host journal_world empty_db
             sample_config [journal_1; journal_2]).
  - vm_compute. reflexivity.
  - reflexivity.
  - reflexivity.
  - apply Permutation_swap.
  - repeat constructor.
Defined.

Lemma rescan_changes_nothing_witness :
  scan_directory sample_host hold_world after_first_run
  = (after_first_run, None).
Proof.
  apply (rescan_changes_nothing sample_host journal_world empty_db
           after_first_run sample_host hold_world sample_config).
  - vm_compute. reflexivity.
  - reflexivity.
  - reflexivity.
  - reflexivity.
  - auto.
Defined.

(** ** File boundaries *)










(** ** Runs without docking *)

(** Without a docking context an event leaves the database as it is. *)
Lemma step_undocked w colonized cargo_file s event s' :
  docked_station s = None →
  process_event w colonized cargo_file s event = Ok s' →
  conn s' = conn s.
Proof.
  intros Hds H. destruct event as [| | | | |e]; try discriminate.
  unfold process_event in H. rewrite Hds in H. cbn [not_docked orb negb] in H.
  apply bind_Ok in H as (kind & _ & H). apply bind_Ok in H as (ts & _ & H).
  destruct (py_eq kind (JStr "Docked")).
  { destruct (is_None _); by inv_bind. }
  destruct (py_eq kind (JStr "MarketBuy")); [by inv_bind|].
  destruct (py_eq kind (JStr "MarketSell")); [by inv_bind|].
  destruct (_ && _); [by inv_bind|].
  destruct (py_eq kind (JStr "Cargo")); [|by inv_bind].
  apply bind_Ok in H as (report & _ & H).
  apply bind_Ok in H as (n & _ & H). rewrite andb_false_r in H.
  by inv_bind.
Qed.

(** X18.  Journals without a [Docked] event never touch the purchases.
    When no file yields a [Docked] record, whatever else the files hold,
    the run leaves the table [purchases] as it found it. *)
Theorem run_without_docking_keeps_purchases w log_files cfg d d' x :
  (∀ t f events, f ∈ log_files →
     parse_log_file w t f = Ok events →
     Forall (λ event, has_kind "Docked" event = false) events) →
  process_logs w log_files cfg d = (d', x) →
  purchases d' = purchases d ∧ purchases_seq d' = purchases_seq d.
Proof.
  unfold process_logs.
  generalize (list_to_set (colonized_systems cfg) : gset Z)
             (path_join (log_directory cfg) "Cargo.json").
  intros colonized cargo_file Hnone.
  assert (Hevents : ∀ events s s',
            Forall (λ event, has_kind "Docked" event = false) events →
            docked_station s = None →
            for_each (process_event w colonized cargo_file) events s = Ok s' →
            docked_station s' = None ∧ conn s' = conn s).
  { induction events as [|event events IH]; intros s s' Hall Hds H.
    - by injection H as <-.
    - cbn [for_each] in H. apply bind_Ok in H as (s1 & Hstep & H).
      apply Forall_cons in Hall as [Hk Hall].
      pose proof (step_keeps_docking _ _ _ _ _ _ Hstep Hk) as Hds1.
      rewrite Hds in Hds1.
      destruct (IH s1 s' Hall Hds1 H) as [Hds' Hconn]. split; [done|].
      rewrite Hconn. by eapply step_undocked. }
  assert (Hfiles : ∀ fs s,
            (∀ f, f ∈ fs → f ∈ log_files) →
            docked_station s = None →
            process_files w colonized cargo_file fs s = (d', x) →
            purchases d' = purchases (conn s)
            ∧ purchases_seq d' = purchases_seq (conn s)).
  { induction fs as [|f fs IH]; intros s Hsub Hds H.
    - by injection H as <- _.
    - cbn [process_files] in H.
      assert (Hsub' : ∀ g, g ∈ fs → g ∈ log_files).
      { intros g Hg. apply Hsub. by right. }
      destruct (process_file w colonized cargo_file s f) as [s1|y] eqn:Hfile;
        [|by injection H as <- _].
      unfold process_file in Hfile.
      destruct (is_processed _ _); [injection Hfile as <-; by apply IH|].
      apply bind_Ok in Hfile as (events & Hparse & Hfile).
      apply bind_Ok in Hfile as (s2 & Hrun & [= <-]).
      assert (Hf : f ∈ log_files) by (apply Hsub; left).
      destruct (Hevents _ (tick s) s2 (Hnone _ _ _ Hf Hparse) Hds Hrun)
        as [Hds2 Hconn].
      apply IH in H as [-> ->]; [|exact Hsub'|exact Hds2].
      cbn. by rewrite Hconn. }
  intros H. by apply (Hfiles log_files (start d) (λ _ Hf, Hf) eq_refl) in H.
Qed.

Lemma run_without_docking_keeps_purchases_witness :
  purchases (process_logs journal_world [journal_2] sample_config
               one_open_row).1
  = purchases one_open_row
  ∧ purchases_seq (process_logs journal_world [journal_2] sample_config
                     one_open_row).1
    = purchases_seq one_open_row.
Proof.
  apply (run_without_docking_keeps_purchases journal_world [journal_2]
           sample_config one_open_row
           (process_logs journal_world [journal_2] sample_config
              one_open_row).1
           (process_logs journal_world [journal_2] sample_config
              one_open_row).2).
  - intros t f events ->%list_elem_of_singleton Hparse.
    vm_compute in Hparse. injection Hparse as <-. repeat constructor.
  - vm_compute. reflexivity.
Defined.

(** ** The affinity of the columns *)

Lemma insert_purchase_same_values w p1 p2 p3 p4 p5 p6 p7 q1 q2 q3 q4 q5 q6 q7 d :
  sql_bind p1 ≫= (λ x, Ok (text_affinity x))
  = sql_bind q1 ≫= (λ x, Ok (text_affinity x)) →
  sql_bind p2 ≫= (λ x, Ok (integer_affinity w x))
  = sql_bind q2 ≫= (λ x, Ok (integer_affinity w x)) →
  p3 = q3 → p4 = q4 → p5 = q5 → p6 = q6 → p7 = q7 →
  insert_purchase w p1 p2 p3 p4 p5 p6 p7 d
  = insert_purchase w q1 q2 q3 q4 q5 q6 q7 d.
Proof.
  intros H1 H2 -> -> -> -> ->. unfold insert_purchase.
  destruct (sql_bind p1) as [a1|x1], (sql_bind q1) as [b1|y1];
    cbn [mbind result_bind] in *; try discriminate; [|congruence].
  injection H1 as H1.
  destruct (sql_bind p2) as [a2|x2], (sql_bind q2) as [b2|y2];
    cbn [mbind result_bind] in *; try discriminate; [|congruence].
  injection H2 as H2. by rewrite H1, H2.
Qed.

Lemma update_same_values w p1 p2 p3 p4 q3 q4 d :
  sql_bind p3 ≫= (λ x, Ok (text_affinity x))
  = sql_bind q3 ≫= (λ x, Ok (text_affinity x)) →
  sql_bind p4 ≫= (λ x, Ok (integer_affinity w x))
  = sql_bind q4 ≫= (λ x, Ok (integer_affinity w x)) →
  update_sold w p1 p2 p3 p4 d = update_sold w p1 p2 q3 q4 d
  ∧ update_delivered w p1 p2 p3 p4 d = update_delivered w p1 p2 q3 q4 d.
Proof.
  intros H3 H4. unfold update_sold, update_delivered.
  destruct (sql_bind p1) as [a1|x1]; [|done].
  destruct (sql_bind p2) as [a2|x2]; [|done].
  destruct (sql_bind p3) as [a3|x3], (sql_bind q3) as [b3|y3];
    cbn [mbind result_bind] in *; try discriminate; [|split; congruence].
  injection H3 as H3.
  destruct (sql_bind p4) as [a4|x4], (sql_bind q4) as [b4|y4];
    cbn [mbind result_bind] in *; try discriminate; [|split; congruence].
  injection H4 as H4. by rewrite H3, H4.
Qed.

(** X19.  Values are stored and compared under the affinity of their
    column.  An event whose [Count] is a text that the store reads as the
    integer [n] does what the same event with the count [n] does: the
    purchase is stored with the number, and a sale or a delivery marks a
    lot of [n] units.  A [MarketSell] whose [Type] is the number [z] does
    what the same event with the decimal text of [z] does. *)
Theorem values_take_the_affinity_of_the_column w colonized cargo_file s e :
  (∀ (c : string) n,
     e !! "Count" = Some (JStr c) →
     numeric_text w c = Some (NInt n) →
     - 2 ^ 63 ≤ n < 2 ^ 63 →
     process_event w colonized cargo_file s (JObj e)
     = process_event w colonized cargo_file s (JObj (<["Count" := JInt n]> e)))
  ∧ (∀ z,
       e !! "event" = Some (JStr "MarketSell") →
       e !! "Type" = Some (JInt z) →
       - 2 ^ 63 ≤ z < 2 ^ 63 →
       process_event w colonized cargo_file s (JObj e)
       = process_event w colonized cargo_file s
           (JObj (<["Type" := JStr (pretty z)]> e))).
Proof.
  split.
  - intros c n Hc Hnum Hn.
    assert (Hother : ∀ k, k ≠ "Count"%string →
              <["Count" := JInt n]> e !! k = e !! k).
    { intros k Hk. by apply lookup_insert_ne. }
    assert (Hcount : sql_bind (get_or e "Count" (JInt 0))
                     ≫= (λ x, Ok (integer_affinity w x))
                     = sql_bind (get_or (<["Count" := JInt n]> e) "Count"
                                   (JInt 0))
                       ≫= (λ x, Ok (integer_affinity w x))).
    { unfold get_or. rewrite Hc, lookup_insert_eq. cbn [from_option id].
      rewrite (sql_bind_int n Hn). cbn [sql_bind mbind result_bind].
      cbn [integer_affinity]. by rewrite Hnum. }
    assert (Hdflt : ∀ k dflt, k ≠ "Count"%string →
              get_or (<["Count" := JInt n]> e) k dflt = get_or e k dflt).
    { intros k dflt Hk. unfold get_or. by rewrite Hother. }
    unfold process_event, item_at, get. rewrite !Hother by done.
    destruct (e !! "event") as [kind|]; [|done].
    destruct (e !! "timestamp") as [ts|]; [|done].
    cbn [mbind result_bind].
    destruct (py_eq kind (JStr "Docked")); [done|].
    destruct (py_eq kind (JStr "MarketBuy")).
    { destruct (_ || _); [done|]. destruct (docked_station s) as [ds|]; [|done].
      rewrite !(Hdflt "BuyPrice"%string), !(Hdflt "TotalCost"%string) by done.
      by rewrite (insert_purchase_same_values w _ _ _ _ _ _ _ _ _ _ _ _ _ _
                    (conn s) eq_refl Hcount eq_refl eq_refl eq_refl eq_refl
                    eq_refl). }
    destruct (py_eq kind (JStr "MarketSell")).
    { destruct (_ || _); [done|]. destruct (docked_station s) as [ds|]; [|done].
      rewrite !(Hdflt "Type"%string) by done.
      by rewrite (proj1 (update_same_values w _ _ _ _ _ _ (conn s)
                           eq_refl Hcount)). }
    destruct (_ && _).
    { destruct (_ || _); [done|]. destruct (docked_station s) as [ds|]; [|done].
      by rewrite (proj2 (update_same_values w _ _ _ _ _ _ (conn s)
                           eq_refl Hcount)). }
    done.
  - intros z He Hz Hrange.
    assert (Hother : ∀ k, k ≠ "Type"%string →
              <["Type" := JStr (pretty z)]> e !! k = e !! k).
    { intros k Hk. by apply lookup_insert_ne. }
    destruct (e !! "timestamp") as [ts|] eqn:Hts.
    2:{ rewrite (step_no_timestamp _ _ _ _ _ _ He Hts).
        symmetry. eapply step_no_timestamp; rewrite Hother; done. }
    rewrite (step_MarketSell _ _ _ _ _ ts He Hts).
    rewrite (step_MarketSell _ _ _ _ (<["Type" := JStr (pretty z)]> e) ts)
      by (rewrite Hother; done).
    destruct (docked_station s) as [ds|]; [|done].
    assert (Htype : sql_bind (get_or e "Type" (JStr "Unknown"))
                    ≫= (λ x, Ok (text_affinity x))
                    = sql_bind (get_or (<["Type" := JStr (pretty z)]> e)
                                  "Type" (JStr "Unknown"))
                      ≫= (λ x, Ok (text_affinity x))).
    { unfold get_or. rewrite Hz, lookup_insert_eq. cbn [from_option id].
      by rewrite (sql_bind_int z Hrange). }
    replace (get_or (<["Type" := JStr (pretty z)]> e) "Count" (JInt 0))
      with (get_or e "Count" (JInt 0))
      by (unfold get_or; by rewrite Hother).
    by rewrite (proj1 (update_same_values w _ _ _ _ _ _ (conn s)
                         Htype eq_refl)).
Qed.

Lemma values_take_the_affinity_of_the_column_witness :
  process_event bare_world ∅ "Cargo.json" gold_before_sale
    (JObj sell_gold_text_count) = Ok gold_after_sale
  ∧ process_event bare_world ∅ "Cargo.json" gold_before_sale
      (JObj sell_gold_text_count)
    = process_event bare_world ∅ "Cargo.json" gold_before_sale
        (JObj (<["Count" := JInt 5]> sell_gold_text_count))
  ∧ process_event bare_world ∅ "Cargo.json" gold_before_sale
      (JObj sell_numbered_type)
    = process_event bare_world ∅ "Cargo.json" gold_before_sale
        (JObj (<["Type" := JStr "7"]> sell_numbered_type)).
Proof.
  destruct (values_take_the_affinity_of_the_column bare_world ∅ "Cargo.json"
              gold_before_sale sell_gold_text_count) as [Hcount _].
  destruct (values_take_the_affinity_of_the_column bare_world ∅ "Cargo.json"
              gold_before_sale sell_numbered_type) as [_ Htype].
  split; [vm_compute; reflexivity|]. split.
  - apply (Hcount "5"%string 5).
    + reflexivity.
    + reflexivity.
    + split; [discriminate|reflexivity].
  - apply (Htype 7).
    + reflexivity.
    + reflexivity.
    + split; [discriminate|reflexivity].
Defined.

(** ** The last id *)



(** ** A cargo report that cannot be decoded as text *)

(** X21.  Only [IOError] and [JSONDecodeError] make [Cargo.json] count as
    empty.  When reading the report raises anything else, as a file that
    is not valid UTF-8 does, the [Cargo] event raises that exception, which
    ends the run. *)
Theorem cargo_report_read_failure w colonized cargo_file s e ts :
  e !! "event" = Some (JStr "Cargo") →
  e !! "timestamp" = Some ts →
  load_json w (clock s) cargo_file = None →
  load_json_error w (clock s) cargo_file ≠ IOError →
  load_json_error w (clock s) cargo_file ≠ JSONDecodeError →
  process_event w colonized cargo_file s (JObj e)
  = Raise (load_json_error w (clock s) cargo_file).
Proof.
  intros He Hts Hload Hio Hjson. rewrite (step_Cargo _ _ _ _ _ ts He Hts).
  unfold parse_cargo_file. rewrite Hload.
  by destruct (load_json_error w (clock s) cargo_file).
Qed.

Lemma cargo_report_read_failure_witness :
  process_event garbled_world ∅ "logs/Cargo.json"
    (with_ledger [gold_row 0 SNull SNull] (Some beta) (Some 5))
    (cargo_event "2025-03-01T11:20:00Z")
  = Raise UnicodeDecodeError.
Proof.
  apply (cargo_report_read_failure garbled_world ∅ "logs/Cargo.json"
           (with_ledger [gold_row 0 SNull SNull] (Some beta) (Some 5))
           (fields (cargo_event "2025-03-01T11:20:00Z"))
           (JStr "2025-03-01T11:20:00Z")).
  - reflexivity.
  - reflexivity.
  - reflexivity.
  - discriminate.
  - discriminate.
Defined.
